(** * ESCAPE2.0: the Socket.IO session coordination layer

    A shallow embedding of [backend/app/websocket/handler.py]: the event
    handlers [connect], [disconnect], [joinSession] and [playerAction], the two
    module-level registries they share ([player_info], [active_sessions]) and
    the calls they make on the Socket.IO server object [sio].

    Layout:
    - [Py]: the Python values a decoded event payload is made of, with the
      operations the handlers apply to them (hashing, truth value, [str()]).
    - [Handler]: the handlers, written in a small state/effect/exception
      monad, one definition per Python function.
    - [SocketIO]: the room bookkeeping of the python-socketio server the
      handlers call into, and the transport that feeds them events.
    - the properties. *)

From Stdlib Require Import ZArith String Ascii List.
From stdpp Require Import gmap strings list fin_maps fin_sets pretty.

#[local] Set Warnings "-register-all,-clear-no-such-hyp".
Open Scope Z_scope.

(* ===================================================================== *)
(** ** Python values *)
(* ===================================================================== *)

Module Py.

(** A decoded JSON value.  Numbers are integers; floating-point numbers are
    outside the model.  A dictionary is its list of items, in order. *)
Inductive pyval : Type :=
| PNone
| PBool (b : bool)
| PInt (z : Z)
| PStr (s : string)
| PList (l : list pyval)
| PDict (d : list (pyval * pyval)).

(** What Python's [hash]/[==] see of a hashable value: [True == 1] and
    [False == 0] name the same dictionary key. *)
Inductive hkey : Type :=
| HNone
| HNum (z : Z)
| HStr (s : string).

#[global] Instance hkey_eq_dec : EqDecision hkey.
Proof. solve_decision. Defined.

Definition hkey_to_sum (k : hkey) : unit + (Z + string) :=
  match k with
  | HNone => inl ()
  | HNum z => inr (inl z)
  | HStr s => inr (inr s)
  end.

Definition hkey_of_sum (x : unit + (Z + string)) : hkey :=
  match x with
  | inl _ => HNone
  | inr (inl z) => HNum z
  | inr (inr s) => HStr s
  end.

#[global] Instance hkey_countable : Countable hkey.
Proof.
  refine (inj_countable' hkey_to_sum hkey_of_sum _).
  by intros [].
Defined.

(** [hash(v)]: lists and dictionaries are unhashable ([TypeError]). *)
Definition py_hash_key (v : pyval) : option hkey :=
  match v with
  | PNone => Some HNone
  | PBool b => Some (HNum (if b then 1 else 0))
  | PInt z => Some (HNum z)
  | PStr s => Some (HStr s)
  | PList _ | PDict _ => None
  end.

(** [bool(v)], as in [if v and ...]. *)
Definition py_truthy (v : pyval) : bool :=
  match v with
  | PNone => false
  | PBool b => b
  | PInt z => negb (z =? 0)
  | PStr s => negb (String.eqb s "")
  | PList l => match l with [] => false | _ => true end
  | PDict d => match d with [] => false | _ => true end
  end.

(** [v == 'literal']: only a string compares equal to a string. *)
Definition py_eq_str (v : pyval) (lit : string) : bool :=
  match v with
  | PStr s => String.eqb s lit
  | _ => false
  end.

(** Item lookup in a dictionary, by key. *)
Fixpoint py_dict_lookup (d : list (pyval * pyval)) (k : hkey) : option pyval :=
  match d with
  | [] => None
  | (k', v) :: rest =>
      if decide (py_hash_key k' = Some k) then Some v else py_dict_lookup rest k
  end.

(** *** [str()] and [repr()], for the f-strings of the handlers *)

Definition quote1 : ascii := ascii_of_nat 39.
Definition quote2 : ascii := ascii_of_nat 34.
Definition backslash : ascii := ascii_of_nat 92.

Definition hex_digit (n : nat) : ascii :=
  if (n <? 10)%nat then ascii_of_nat (48 + n) else ascii_of_nat (87 + n).

Fixpoint string_has (c : ascii) (s : string) : bool :=
  match s with
  | EmptyString => false
  | String c' rest => if Ascii.eqb c c' then true else string_has c rest
  end.

(** One character of a quoted string.  A string is its UTF-8 bytes: bytes
    from 128 up are copied, which is what Python does for the characters
    that [str.isprintable] accepts.  The others outside ASCII (U+00A0, say)
    Python writes as escapes, by the Unicode tables of the interpreter;
    these are not modelled, so that [py_repr] is exact for strings whose
    characters outside ASCII are printable.  It is used for the text of a
    room name or of a message built from a field that is a list or a
    dictionary, and for nothing else. *)
Definition repr_char (q : ascii) (c : ascii) : string :=
  let n := nat_of_ascii c in
  let esc (x : string) := String backslash x in
  if Ascii.eqb c backslash then esc (String backslash "")
  else if Ascii.eqb c q then esc (String q "")
  else if (n =? 9)%nat then esc "t"
  else if (n =? 10)%nat then esc "n"
  else if (n =? 13)%nat then esc "r"
  else if ((n <? 32) || (n =? 127))%nat
       then esc (String "x" (String (hex_digit (n / 16)) (String (hex_digit (n mod 16)) "")))
  else String c "".

Fixpoint repr_chars (q : ascii) (s : string) : string :=
  match s with
  | EmptyString => ""
  | String c rest => repr_char q c +:+ repr_chars q rest
  end.

Definition py_repr_str (s : string) : string :=
  let q := if string_has quote1 s && negb (string_has quote2 s) then quote2 else quote1 in
  String q (repr_chars q s) +:+ String q "".

Definition join_comma (parts : list string) : string :=
  String.concat ", " parts.

Fixpoint py_repr (v : pyval) : string :=
  match v with
  | PNone => "None"
  | PBool b => if b then "True" else "False"
  | PInt z => pretty z
  | PStr s => py_repr_str s
  | PList l => "[" +:+ join_comma (map py_repr l) +:+ "]"
  | PDict d =>
      "{" +:+ join_comma (map (λ kv, py_repr kv.1 +:+ ": " +:+ py_repr kv.2) d) +:+ "}"
  end.

Definition py_str (v : pyval) : string :=
  match v with
  | PStr s => s
  | _ => py_repr v
  end.

End Py.
Export Py.

(* ===================================================================== *)
(** ** The handlers of [websocket/handler.py] *)
(* ===================================================================== *)

Module Handler.

(** The value of [player_info[sid]]: a dictionary with exactly the keys
    ['sessionId'], ['room'] and ['playerName']. *)
Record pinfo : Type := PInfo {
  sessionId : pyval;
  room : pyval;
  playerName : pyval
}.

(** The module-level registries [player_info] and [active_sessions]. *)
Record app_state : Type := AppState {
  player_info : gmap string pinfo;
  active_sessions : gmap hkey (gset string)
}.

Definition app_init : app_state := AppState ∅ ∅.

(** The exceptions met.  [ServerError] stands for what python-socketio raises
    when it cannot look up the room it is given, and [CommitError] for what
    a commit raises when the database refuses a value: which exception
    class that is depends on the library and on the value. *)
Inductive pyexc : Type :=
| TypeError
| AttributeError
| KeyError
| ServerError
| CommitError.

(** What a handler does, in program order: the writes to the registries and
    the calls on [sio].  [Emit]'s [room] is the [room=]/[to=] argument (the
    two are aliases in python-socketio). *)
Inductive effect : Type :=
| SetPlayerInfo (sid : string) (info : pinfo)
| DelPlayerInfo (sid : string)
| NewSession (k : hkey)
| AddMember (k : hkey) (sid : string)
| DiscardMember (k : hkey) (sid : string)
| EnterRoom (sid : string) (room : pyval)
| Emit (event : string) (data : pyval) (room : pyval) (skip_sid : option string).

Inductive outcome (A : Type) : Type :=
| Returned (a : A)
| Raised (e : pyexc).
Arguments Returned {A} a.
Arguments Raised {A} e.

(** A finished run: the registries as the handler left them, its effects,
    and whether it returned or raised.  An exception keeps the writes made
    before it. *)
Record ran (A : Type) : Type := Ran {
  final : app_state;
  trace : list effect;
  result : outcome A
}.
Arguments Ran {A} final trace result.
Arguments final {A} r.
Arguments trace {A} r.
Arguments result {A} r.

Definition handler (A : Type) : Type := app_state → ran A.

#[global] Instance handler_ret : MRet handler :=
  λ A a σ, Ran σ [] (Returned a).

#[global] Instance handler_bind : MBind handler :=
  λ A B f m σ,
    match m σ with
    | Ran σ1 t1 (Raised e) => Ran σ1 t1 (Raised e)
    | Ran σ1 t1 (Returned a) =>
        match f a σ1 with
        | Ran σ2 t2 r => Ran σ2 (t1 ++ t2) r
        end
    end.

Definition raise {A} (e : pyexc) : handler A :=
  λ σ, Ran σ [] (Raised e).

Definition gets {A} (f : app_state → A) : handler A :=
  λ σ, Ran σ [] (Returned (f σ)).

Definition perform (e : effect) (f : app_state → app_state) : handler unit :=
  λ σ, Ran (f σ) [e] (Returned ()).

(** [hash(v)], as every dictionary operation on key [v] starts. *)
Definition py_hash (v : pyval) : handler hkey :=
  match py_hash_key v with
  | Some k => mret k
  | None => raise TypeError
  end.

(** [data.get(key, default)]; only a dictionary has [.get]. *)
Definition py_get (data : pyval) (key : string) (dflt : pyval) : handler pyval :=
  match data with
  | PDict d => mret (default dflt (py_dict_lookup d (HStr key)))
  | _ => raise AttributeError
  end.

(** The dictionary display [{key: value}]: it hashes its key. *)
Definition py_dict1 (key value : pyval) : handler pyval :=
  _ ← py_hash key; mret (PDict [(key, value)]).

(** *** The registries *)

(** [sid in player_info] *)
Definition player_info_has (sid : string) : handler bool :=
  gets (λ σ, bool_decide (is_Some (player_info σ !! sid))).

(** [player_info[sid]] *)
Definition player_info_get (sid : string) : handler pinfo :=
  λ σ, match player_info σ !! sid with
       | Some info => Ran σ [] (Returned info)
       | None => Ran σ [] (Raised KeyError)
       end.

(** [player_info[sid] = info] *)
Definition player_info_set (sid : string) (info : pinfo) : handler unit :=
  perform (SetPlayerInfo sid info)
    (λ σ, AppState (<[sid := info]> (player_info σ)) (active_sessions σ)).

(** [del player_info[sid]] *)
Definition player_info_del (sid : string) : handler unit :=
  λ σ, match player_info σ !! sid with
       | Some _ =>
           Ran (AppState (delete sid (player_info σ)) (active_sessions σ))
               [DelPlayerInfo sid] (Returned ())
       | None => Ran σ [] (Raised KeyError)
       end.

(** [session_id in active_sessions] *)
Definition active_sessions_has (session_id : pyval) : handler bool :=
  k ← py_hash session_id;
  gets (λ σ, bool_decide (is_Some (active_sessions σ !! k))).

(** [active_sessions[session_id] = set()] *)
Definition active_sessions_new (session_id : pyval) : handler unit :=
  k ← py_hash session_id;
  perform (NewSession k)
    (λ σ, AppState (player_info σ) (<[k := ∅]> (active_sessions σ))).

(** [active_sessions[k]] *)
Definition active_sessions_get (k : hkey) : handler (gset string) :=
  λ σ, match active_sessions σ !! k with
       | Some members => Ran σ [] (Returned members)
       | None => Ran σ [] (Raised KeyError)
       end.

(** [active_sessions[session_id]], then a method of the set it returns; the
    set is updated in place. *)
Definition active_sessions_update (session_id : pyval)
    (e : hkey → effect) (f : gset string → gset string) : handler unit :=
  k ← py_hash session_id;
  members ← active_sessions_get k;
  perform (e k)
    (λ σ, AppState (player_info σ) (<[k := f members]> (active_sessions σ))).

(** [active_sessions[session_id].add(sid)] *)
Definition active_sessions_add (session_id : pyval) (sid : string) : handler unit :=
  active_sessions_update session_id (λ k, AddMember k sid) (λ members, members ∪ {[sid]}).

(** [active_sessions[session_id].discard(sid)] *)
Definition active_sessions_discard (session_id : pyval) (sid : string) : handler unit :=
  active_sessions_update session_id (λ k, DiscardMember k sid) (λ members, members ∖ {[sid]}).

(** *** The calls on [sio] *)

Definition sio_enter_room (sid : string) (room : pyval) : handler unit :=
  perform (EnterRoom sid room) id.

(** [sio.emit(event, data, room=room, skip_sid=skip_sid)].  The server
    looks the room up among its rooms.  A room that is a list or a
    dictionary is outside what the handlers may rely on: the library hashes
    it or indexes it, by its version.  The call is recorded, and taken to
    raise; what is proved of a result or of recipients is proved for rooms
    that can be hashed. *)
Definition sio_emit (event : string) (data : pyval) (room : pyval)
    (skip_sid : option string) : handler unit :=
  perform (Emit event data room skip_sid) id;;
  match py_hash_key room with
  | Some _ => mret ()
  | None => raise ServerError
  end.

(** The items of a dictionary display with string keys, and the display. *)
Definition items (l : list (string * pyval)) : list (pyval * pyval) :=
  map (λ kv, (PStr kv.1, kv.2)) l.

Definition obj (l : list (string * pyval)) : pyval :=
  PDict (items l).

(** *** The handlers *)

(** The [logger.info] calls format their arguments with [str()], which
    cannot fail on these values; they change nothing here and are left out. *)

(** [connect(sid, environ)]: logs. *)
Definition connect (sid : string) : handler unit :=
  mret ().

(** [disconnect(sid)] *)
Definition disconnect (sid : string) : handler unit :=
  known ← player_info_has sid;
  if known : bool then
    info ← player_info_get sid;
    let session_id := sessionId info in
    let room := room info in
    let player_name := playerName info in
    guard ← (if py_truthy session_id then active_sessions_has session_id else mret false);
    (if guard : bool then
       active_sessions_discard session_id sid;;
       sio_emit "playerLeft"
         (obj [("playerName", player_name); ("room", room)]) session_id None
     else mret ());;
    player_info_del sid
  else mret ().

(** The literal [initial_state] of [joinSession]. *)
Definition initial_state : pyval :=
  obj [("objectStates",
        obj [("forno", PStr "off");
             ("frigo", PStr "off");
             ("cassetto", PStr "chiuso");
             ("valvola_gas", PStr "chiusa");
             ("finestra", PStr "chiusa")]);
       ("completed", PList []);
       ("currentPuzzle", PNone)].

(** [joinSession(sid, data)] *)
Definition joinSession (sid : string) (data : pyval) : handler unit :=
  session_id ← py_get data "sessionId" PNone;
  room ← py_get data "room" PNone;
  player_name ← py_get data "playerName" (PStr "Guest");
  player_info_set sid (PInfo session_id room player_name);;
  known ← active_sessions_has session_id;
  (if known : bool then mret () else active_sessions_new session_id);;
  active_sessions_add session_id sid;;
  sio_enter_room sid session_id;;
  sio_enter_room sid (PStr (py_str session_id +:+ ":" +:+ py_str room));;
  sio_emit "playerJoined"
    (obj [("playerName", player_name); ("room", room)]) session_id (Some sid);;
  sio_emit "sessionState" initial_state (PStr sid) None.

(** The conditional expression that computes [new_state] in [playerAction]. *)
Definition new_state (action : pyval) : string :=
  if py_eq_str action "on" then "on"
  else if py_eq_str action "open" then "aperto"
  else if py_eq_str action "off" then "off"
  else "chiuso".

(** [playerAction(sid, data)] *)
Definition playerAction (sid : string) (data : pyval) : handler unit :=
  session_id ← py_get data "sessionId" PNone;
  room ← py_get data "room" PNone;
  player_name ← py_get data "playerName" (PStr "Guest");
  action ← py_get data "action" PNone;
  target ← py_get data "target" PNone;
  let new_state := new_state action in
  let message := PStr (py_str target +:+ " " +:+ py_str action) in
  delta ← py_dict1 target (PStr new_state);
  sio_emit "actionSuccess"
    (obj [("message", message);
          ("sessionState", obj [("objectStates", delta)])]) (PStr sid) None;;
  delta ← py_dict1 target (PStr new_state);
  sio_emit "globalStateUpdate"
    (obj [("objectStates", delta); ("updatedBy", player_name); ("room", room)])
    session_id (Some sid).

(** [broadcast_element_update(room_name, element, action, value)].  [utcnow]
    is the text of [datetime.utcnow().isoformat()] at the call.  The two
    [emit]s name no room. *)
Definition broadcast_element_update (utcnow : string)
    (room_name element action value : pyval) : handler unit :=
  let message :=
    obj [("type", PStr "element_update");
         ("room", room_name);
         ("element", element);
         ("action", action);
         ("value", value);
         ("timestamp", PStr (utcnow +:+ "Z"))] in
  sio_emit "globalNotification"
    (obj [("message",
           PStr (py_str element +:+ " in " +:+ py_str room_name +:+ ": "
                 +:+ py_str action))])
    PNone None;;
  sio_emit "globalStateUpdate" message PNone None.

(** [broadcast_to_session(session_id, event, data)] *)
Definition broadcast_to_session (session_id : pyval) (event : string)
    (data : pyval) : handler unit :=
  sio_emit event data session_id None.

(** [send_notification(session_id, message)] *)
Definition send_notification (session_id message : pyval) : handler unit :=
  sio_emit "globalNotification" (obj [("message", message)]) session_id None.

(** [WebSocketHandler.connection_count]: [len(player_info)].  The other
    methods of the class call the three functions above with the same
    arguments. *)
Definition connection_count (σ : app_state) : nat :=
  size (player_info σ).

End Handler.
Export Handler.

(* ===================================================================== *)
(** ** The Socket.IO server the handlers call into *)
(* ===================================================================== *)

(** python-socketio is an external dependency of the repository.  This module
    states the part of its documented behaviour that the handlers rely on:
    - on connect a client is put in the room of all clients (room [None]) and
      in a private room named by its own [sid];
    - [enter_room(sid, room)] adds the client to [room];
    - [emit(event, data, room=r, skip_sid=s)] addresses the participants of
      [r] other than [s]; [to=] is another spelling of [room=];
    - [emit] with a room that is a list or a dictionary is taken to raise,
      and to reach nobody;
    - a disconnect calls the [disconnect] handler with the client still in
      its rooms, then removes the client from every room; when the client
      asked for it ([DisconnectRequest]) the transport is still open while
      the handler runs, so that what is emitted to a room of the client
      reaches the client too; when the transport was lost ([Disconnect])
      it is closed by then;
    - an event handler that raises does not stop the server: what it wrote
      before raising stays written. *)
Module SocketIO.

Record sio_state : Type := SioState {
  rooms : gmap hkey (gset string);
  (** the clients whose transport is open *)
  live : gset string
}.

(** One emitted event and the clients it reaches ([None]: the room is a list
    or a dictionary, and the call is taken to raise). *)
Record delivery : Type := Delivery {
  d_event : string;
  d_data : pyval;
  d_to : option (list string)
}.

Definition members_of (s : sio_state) (k : hkey) : gset string :=
  default ∅ (rooms s !! k).

Definition participants (s : sio_state) (room : pyval) : option (gset string) :=
  members_of s <$> py_hash_key room.

Definition skipped (skip_sid : option string) : gset string :=
  match skip_sid with
  | Some c => {[c]}
  | None => ∅
  end.

Definition audience (s : sio_state) (room : pyval) (skip_sid : option string)
    : option (list string) :=
  (λ P : gset string, elements ((P ∖ skipped skip_sid) ∩ live s)) <$> participants s room.

Definition enter (k : hkey) (sid : string) (s : sio_state) : sio_state :=
  SioState (<[k := members_of s k ∪ {[sid]}]> (rooms s)) (live s).

(** The handlers only enter rooms whose name they have hashed before. *)
Definition enter_room (sid : string) (room : pyval) (s : sio_state) : sio_state :=
  match py_hash_key room with
  | Some k => enter k sid s
  | None => s
  end.

(** The effect of one handler effect on the server. *)
Definition sio_apply (s : sio_state) (e : effect) : sio_state * list delivery :=
  match e with
  | EnterRoom sid room => (enter_room sid room s, [])
  | Emit event data room skip_sid => (s, [Delivery event data (audience s room skip_sid)])
  | _ => (s, [])
  end.

Fixpoint sio_exec (s : sio_state) (t : list effect) : sio_state * list delivery :=
  match t with
  | [] => (s, [])
  | e :: rest =>
      let '(s1, ds1) := sio_apply s e in
      let '(s2, ds2) := sio_exec s1 rest in
      (s2, ds1 ++ ds2)
  end.

(** *** The transport *)

Inductive event : Type :=
| Connect (sid : string)
| Disconnect (sid : string)
| JoinSession (sid : string) (data : pyval)
| PlayerAction (sid : string) (data : pyval)
| DisconnectRequest (sid : string).

(** The handler an event is dispatched to. *)
Definition handle (e : event) : handler unit :=
  match e with
  | Connect sid => connect sid
  | Disconnect sid => disconnect sid
  | JoinSession sid data => joinSession sid data
  | PlayerAction sid data => playerAction sid data
  | DisconnectRequest sid => disconnect sid
  end.

Definition sender (e : event) : string :=
  match e with
  | Connect sid | Disconnect sid | JoinSession sid _ | PlayerAction sid _
  | DisconnectRequest sid => sid
  end.

(** The process: the registries of the application, the server, and the
    [sid]s handed out so far (a [sid] is never reused). *)
Record system : Type := System {
  application : app_state;
  server : sio_state;
  seen : gset string
}.

Definition init : system := System app_init (SioState ∅ ∅) ∅.

(** A connect carries a fresh [sid]; every other event comes from a live
    client. *)
Definition enabled (Σ : system) (e : event) : bool :=
  match e with
  | Connect sid => bool_decide (sid ∉ seen Σ)
  | Disconnect sid | JoinSession sid _ | PlayerAction sid _
  | DisconnectRequest sid =>
      bool_decide (sid ∈ live (server Σ))
  end.

Definition dispatch {A} (Σ : system) (s : sio_state) (r : ran A)
    : system * list delivery :=
  let '(s', ds) := sio_exec s (trace r) in
  (System (final r) s' (seen Σ), ds).

Definition open_transport (sid : string) (s : sio_state) : sio_state :=
  let s1 := enter HNone sid (enter (HStr sid) sid s) in
  SioState (rooms s1) (live s ∪ {[sid]}).

Definition close_transport (sid : string) (s : sio_state) : sio_state :=
  SioState (rooms s) (live s ∖ {[sid]}).

Definition leave_all (sid : string) (s : sio_state) : sio_state :=
  SioState ((λ P : gset string, P ∖ {[sid]}) <$> rooms s) (live s).

Definition step (Σ : system) (e : event) : system * list delivery :=
  match e with
  | Connect sid =>
      let Σ1 := System (application Σ) (open_transport sid (server Σ)) (seen Σ ∪ {[sid]}) in
      dispatch Σ1 (server Σ1) (handle e (application Σ1))
  | JoinSession _ _ | PlayerAction _ _ =>
      dispatch Σ (server Σ) (handle e (application Σ))
  | Disconnect sid =>
      let '(Σ1, ds) :=
        dispatch Σ (close_transport sid (server Σ)) (handle e (application Σ)) in
      (System (application Σ1) (leave_all sid (server Σ1)) (seen Σ1), ds)
  | DisconnectRequest sid =>
      let '(Σ1, ds) := dispatch Σ (server Σ) (handle e (application Σ)) in
      (System (application Σ1) (leave_all sid (close_transport sid (server Σ1)))
              (seen Σ1), ds)
  end.

Fixpoint run (es : list event) (Σ : system) : option system :=
  match es with
  | [] => Some Σ
  | e :: rest => if enabled Σ e then run rest (step Σ e).1 else None
  end.

Definition reachable (Σ : system) : Prop :=
  ∃ es, run es init = Some Σ.

(** The deliveries of an event named [name]. *)
Definition deliveries_of (name : string) (ds : list delivery) : list delivery :=
  filter (λ d, d_event d = name) ds.

End SocketIO.
Export SocketIO.

(* ===================================================================== *)
(** ** The session service of [services/session_service.py] *)
(* ===================================================================== *)

(** [SessionService] works on the table [game_sessions] through an ORM
    session: a method reads a row by primary key, assigns to its attributes
    and commits.  The table is the map from [id] to the other columns of
    [models/game_session.py]; all of them but [room_id] are nullable.  Times
    are instants.  The counters are [Integer] columns: the database holds
    values up to [integer_max] (2^31 - 1 on PostgreSQL and MySQL, 2^63 - 1
    on SQLite), which the method that counts up takes as a parameter; the
    commit of a larger value raises, here [CommitError], and leaves the
    table as it was.  Each call is made on a database session of its own,
    so that a call that raised does not affect the next. *)
Module SessionService.

Record game_session : Type := GameSession {
  room_id : Z;
  start_time : option Z;
  end_time : option Z;
  expected_players : option Z;
  connected_players : option Z
}.

Definition with_connected_players (n : Z) (s : game_session) : game_session :=
  GameSession (room_id s) (start_time s) (end_time s) (expected_players s) (Some n).

Definition with_end_time (t : Z) (s : game_session) : game_session :=
  GameSession (room_id s) (start_time s) (Some t) (expected_players s)
              (connected_players s).

(** What a method leaves in the table, and what it returns or raises. *)
Definition served (A : Type) : Type := gmap Z game_session * outcome A.

(** [get_by_id(session_id)] *)
Definition get_by_id (db : gmap Z game_session) (session_id : Z) : option game_session :=
  db !! session_id.

(** [end_session(session_id)]; [utcnow] is [datetime.utcnow()] at the call. *)
Definition end_session (utcnow : Z) (db : gmap Z game_session) (session_id : Z)
    : served (option game_session) :=
  match get_by_id db session_id with
  | None => (db, Returned None)
  | Some session =>
      let session' := with_end_time utcnow session in
      (<[session_id := session']> db, Returned (Some session'))
  end.

(** [increment_players(session_id)]: [None += 1] raises [TypeError], and
    the commit of a count above [integer_max] raises. *)
Definition increment_players (integer_max : Z) (db : gmap Z game_session)
    (session_id : Z) : served (option game_session) :=
  match get_by_id db session_id with
  | None => (db, Returned None)
  | Some session =>
      match connected_players session with
      | None => (db, Raised TypeError)
      | Some n =>
          if integer_max <? n + 1 then (db, Raised CommitError)
          else
            let session' := with_connected_players (n + 1) session in
            (<[session_id := session']> db, Returned (Some session'))
      end
  end.

(** [decrement_players(session_id)]: [None > 0] raises [TypeError].  The
    count written is below the one read, and not negative. *)
Definition decrement_players (db : gmap Z game_session) (session_id : Z)
    : served (option game_session) :=
  match get_by_id db session_id with
  | None => (db, Returned None)
  | Some session =>
      match connected_players session with
      | None => (db, Raised TypeError)
      | Some n =>
          if 0 <? n then
            let session' := with_connected_players (n - 1) session in
            (<[session_id := session']> db, Returned (Some session'))
          else (db, Returned (Some session))
      end
  end.

(** The [HTTPException] of [api/sessions.py]. *)
Record http_exception : Type := HTTPException {
  status_code : Z;
  detail : string
}.


(** [end_specific_session(session_id)] of [api/sessions.py].  An exception
    of the service goes through. *)
Definition end_specific_session (utcnow : Z) (db : gmap Z game_session)
    (session_id : Z) : gmap Z game_session * outcome (http_exception + game_session) :=
  match end_session utcnow db session_id with
  | (db', Returned None) => (db', Returned (inl (HTTPException 404 "Session not found")))
  | (db', Returned (Some session)) => (db', Returned (inr session))
  | (db', Raised e) => (db', Raised e)
  end.

(** A call on the service, and the table a sequence of calls leaves. *)
Inductive service_call : Type :=
| IncrementPlayers (session_id : Z)
| DecrementPlayers (session_id : Z)
| EndSession (utcnow : Z) (session_id : Z).

Definition serve (integer_max : Z) (db : gmap Z game_session) (c : service_call)
    : gmap Z game_session :=
  match c with
  | IncrementPlayers session_id => (increment_players integer_max db session_id).1
  | DecrementPlayers session_id => (decrement_players db session_id).1
  | EndSession utcnow session_id => (end_session utcnow db session_id).1
  end.

Definition serve_all (integer_max : Z) (db : gmap Z game_session)
    (cs : list service_call) : gmap Z game_session :=
  foldl (serve integer_max) db cs.

(** No row has a negative player count. *)
Definition counts_ok (db : gmap Z game_session) : Prop :=
  ∀ session_id session n,
    db !! session_id = Some session → connected_players session = Some n → 0 ≤ n.

End SessionService.
Export SessionService.

(* ===================================================================== *)
(** ** Vocabulary of the properties *)
(* ===================================================================== *)

(** The value [data.get(key, dflt)] reads from a dictionary payload. *)
Definition field (d : list (pyval * pyval)) (key : string) (dflt : pyval) : pyval :=
  default dflt (py_dict_lookup d (HStr key)).

(** [payload[key]], when there is such an item. *)
Definition item (payload : pyval) (key : string) : option pyval :=
  match payload with
  | PDict d => py_dict_lookup d (HStr key)
  | _ => None
  end.

(** The membership set of a session: [active_sessions.get(k, set())]. *)
Definition members (σ : app_state) (k : hkey) : gset string :=
  default ∅ (active_sessions σ !! k).

(** The session-wide notice of a Join or an Action. *)
Definition broadcast_name (e : event) : option string :=
  match e with
  | JoinSession _ _ => Some "playerJoined"
  | PlayerAction _ _ => Some "globalStateUpdate"
  | _ => None
  end.

(** The session a Join or an Action names in its payload. *)
Definition named_session (e : event) : option hkey :=
  match e with
  | JoinSession _ (PDict d) | PlayerAction _ (PDict d) =>
      py_hash_key (field d "sessionId" PNone)
  | _ => None
  end.

Definition is_emit (name : string) (e : effect) : bool :=
  match e with
  | Emit event _ _ _ => bool_decide (event = name)
  | _ => false
  end.

(** Some [emit] of [a] comes before some [emit] of [b]. *)
Fixpoint emits_before (a b : string) (t : list effect) : bool :=
  match t with
  | [] => false
  | e :: rest =>
      (is_emit a e && existsb (is_emit b) rest) || emits_before a b rest
  end.

(** The [objectStates] delta an emitted payload carries, at top level
    ([globalStateUpdate]) or under ['sessionState'] ([actionSuccess]). *)
Definition delta_of (e : effect) : option pyval :=
  match e with
  | Emit _ payload _ _ =>
      match item payload "objectStates" with
      | Some delta => Some delta
      | None =>
          match item payload "sessionState" with
          | Some s => item s "objectStates"
          | None => None
          end
      end
  | _ => None
  end.

(** [payload['objectStates'][element]], when there is such an item. *)
Definition object_state (payload : pyval) (element : string) : option pyval :=
  match item payload "objectStates" with
  | Some states => item states element
  | None => None
  end.

(** A call made by server code between two events. *)
Definition server_call (Σ : system) (h : handler unit) : system * list delivery :=
  dispatch Σ (server Σ) (h (application Σ)).

(** What holds in every reachable state. *)
Record inv (Σ : system) : Prop := Inv {
  (** live clients carry a [sid] that was handed out *)
  inv_live_seen : live (server Σ) ⊆ seen Σ;
  (** so do the members of every session *)
  inv_members_seen : ∀ k m, m ∈ members (application Σ) k → m ∈ seen Σ;
  (** a live member of a session is in the server's room of that name *)
  inv_members_room : ∀ k m,
    m ∈ members (application Σ) k → m ∈ live (server Σ) →
    m ∈ members_of (server Σ) k;
  (** whoever is registered under a hashable session is a member of it *)
  inv_announced : ∀ sid info k,
    player_info (application Σ) !! sid = Some info →
    py_hash_key (sessionId info) = Some k →
    sid ∈ members (application Σ) k;
  (** a live client is in its private room *)
  inv_private : ∀ m, m ∈ live (server Σ) → m ∈ members_of (server Σ) (HStr m)
}.

(** The players of the end-to-end scenarios. *)
Module Scenario.

Definition X : string := "X".
Definition Y : string := "Y".

Definition join_fields (session_id room player_name : string)
    : list (pyval * pyval) :=
  items [("sessionId", PStr session_id); ("room", PStr room);
         ("playerName", PStr player_name)].

Definition joins (session_id room player_name : string) : pyval :=
  PDict (join_fields session_id room player_name).

Definition action_fields (session_id room player_name action target : string)
    : list (pyval * pyval) :=
  items [("sessionId", PStr session_id); ("room", PStr room);
         ("playerName", PStr player_name); ("action", PStr action);
         ("target", PStr target)].

Definition acts (session_id room player_name action target : string) : pyval :=
  PDict (action_fields session_id room player_name action target).

(** The state a history of events leads to. *)
Definition after (es : list event) : system :=
  default init (run es init).

(** X joins S1 as Alice, Y joins S1 as Bob. *)
Definition both_joined : list event :=
  [Connect X; JoinSession X (joins "S1" "kitchen" "Alice");
   Connect Y; JoinSession Y (joins "S1" "kitchen" "Bob")].

(** X joins S1 as Alice and switches the oven on; then Y connects. *)
Definition oven_switched_on : list event :=
  [Connect X; JoinSession X (joins "S1" "kitchen" "Alice");
   PlayerAction X (acts "S1" "kitchen" "Alice" "on" "forno");
   Connect Y].

(** X joins session A, then session B. *)
Definition joined_twice : list event :=
  [Connect X; JoinSession X (joins "A" "kitchen" "Alice");
   JoinSession X (joins "B" "kitchen" "Alice")].

(** X joins the session whose identifier is the empty string. *)
Definition joined_unnamed : list event :=
  [Connect X; JoinSession X (joins "" "kitchen" "Alice")].

(** A table with one running session, of room 1, with two players. *)
Definition running : game_session :=
  GameSession 1 (Some 1000) None (Some 2) (Some 2).

Definition one_session : gmap Z game_session := {[7 := running]}.

End Scenario.
Import Scenario.

(* ===================================================================== *)
(** ** What each handler does, case by case *)
(* ===================================================================== *)

(** Runs the monad of a handler as far as the registries allow, leaving
    the operations on values and on maps folded. *)
Ltac run_handler :=
  cbv beta iota zeta delta
    [joinSession playerAction disconnect connect
     player_info_has player_info_get player_info_set player_info_del
     active_sessions_has active_sessions_new active_sessions_add
     active_sessions_discard active_sessions_update active_sessions_get
     sio_enter_room sio_emit py_dict1 py_hash py_get perform gets raise
     mbind handler_bind mret handler_ret];
  cbn [List.app id player_info active_sessions py_hash_key].

Section HandlerFacts.
Context (sid : string) (σ : app_state).

Lemma joinSession_not_dict data :
  (∀ d, data ≠ PDict d) →
  joinSession sid data σ = Ran σ [] (Raised AttributeError).
Proof.
  intros Hd. destruct data as [| | | | |d]; [reflexivity..|]. by destruct (Hd d).
Qed.

Lemma joinSession_unhashable d :
  let info := PInfo (field d "sessionId" PNone) (field d "room" PNone)
                    (field d "playerName" (PStr "Guest")) in
  py_hash_key (field d "sessionId" PNone) = None →
  joinSession sid (PDict d) σ =
    Ran (AppState (<[sid := info]> (player_info σ)) (active_sessions σ))
        [SetPlayerInfo sid info] (Raised TypeError).
Proof.
  intros info Hk. run_handler. fold (field d "sessionId" PNone).
  rewrite Hk. by run_handler.
Qed.

Lemma joinSession_hashable d k :
  let session_id := field d "sessionId" PNone in
  let room := field d "room" PNone in
  let player_name := field d "playerName" (PStr "Guest") in
  let info := PInfo session_id room player_name in
  py_hash_key session_id = Some k →
  joinSession sid (PDict d) σ =
    Ran (AppState (<[sid := info]> (player_info σ))
                  (<[k := members σ k ∪ {[sid]}]> (active_sessions σ)))
        (SetPlayerInfo sid info
         :: match active_sessions σ !! k with
            | Some _ => []
            | None => [NewSession k]
            end
         ++ [AddMember k sid;
             EnterRoom sid session_id;
             EnterRoom sid (PStr (py_str session_id +:+ ":" +:+ py_str room));
             Emit "playerJoined"
               (obj [("playerName", player_name); ("room", room)])
               session_id (Some sid);
             Emit "sessionState" initial_state (PStr sid) None])
        (Returned ()).
Proof.
  intros session_id room player_name info Hk. run_handler.
  fold (field d "sessionId" PNone). fold session_id. rewrite Hk. run_handler.
  unfold members. destruct (active_sessions σ !! k) as [S|] eqn:HS.
  - rewrite bool_decide_eq_true_2 by eauto. run_handler. rewrite HS. by run_handler.
  - rewrite bool_decide_eq_false_2 by (by intros [? ?]). run_handler.
    rewrite lookup_insert_eq. run_handler. by rewrite insert_insert_eq.
Qed.

Lemma playerAction_not_dict data :
  (∀ d, data ≠ PDict d) →
  playerAction sid data σ = Ran σ [] (Raised AttributeError).
Proof.
  intros Hd. destruct data as [| | | | |d]; [reflexivity..|]. by destruct (Hd d).
Qed.

Lemma playerAction_unhashable d :
  py_hash_key (field d "target" PNone) = None →
  playerAction sid (PDict d) σ = Ran σ [] (Raised TypeError).
Proof.
  intros Hk. run_handler. fold (field d "target" PNone).
  rewrite Hk. by run_handler.
Qed.

Lemma playerAction_hashable d k :
  let session_id := field d "sessionId" PNone in
  let room := field d "room" PNone in
  let player_name := field d "playerName" (PStr "Guest") in
  let action := field d "action" PNone in
  let target := field d "target" PNone in
  let delta := PDict [(target, PStr (new_state action))] in
  py_hash_key target = Some k →
  playerAction sid (PDict d) σ =
    Ran σ
        [Emit "actionSuccess"
           (obj [("message", PStr (py_str target +:+ " " +:+ py_str action));
                 ("sessionState", obj [("objectStates", delta)])])
           (PStr sid) None;
         Emit "globalStateUpdate"
           (obj [("objectStates", delta); ("updatedBy", player_name); ("room", room)])
           session_id (Some sid)]
        match py_hash_key session_id with
        | Some _ => Returned ()
        | None => Raised ServerError
        end.
Proof.
  intros session_id room player_name action target delta Hk.
  run_handler. fold (field d "target" PNone). fold target.
  rewrite Hk. run_handler. fold (field d "sessionId" PNone). fold session_id.
  by destruct (py_hash_key session_id).
Qed.

Lemma disconnect_unknown :
  player_info σ !! sid = None →
  disconnect sid σ = Ran σ [] (Returned ()).
Proof.
  intros Hpi. run_handler.
  by rewrite bool_decide_eq_false_2 by (rewrite Hpi; by intros [? ?]).
Qed.

Lemma disconnect_known info :
  player_info σ !! sid = Some info →
  disconnect sid σ =
    let gone := delete sid (player_info σ) in
    if py_truthy (sessionId info) then
      match py_hash_key (sessionId info) with
      | None => Ran σ [] (Raised TypeError)
      | Some k =>
          match active_sessions σ !! k with
          | None => Ran (AppState gone (active_sessions σ)) [DelPlayerInfo sid] (Returned ())
          | Some ms =>
              Ran (AppState gone (<[k := ms ∖ {[sid]}]> (active_sessions σ)))
                  [DiscardMember k sid;
                   Emit "playerLeft"
                     (obj [("playerName", playerName info); ("room", room info)])
                     (sessionId info) None;
                   DelPlayerInfo sid]
                  (Returned ())
          end
      end
    else Ran (AppState gone (active_sessions σ)) [DelPlayerInfo sid] (Returned ()).
Proof.
  intros Hpi. run_handler.
  rewrite bool_decide_eq_true_2 by (rewrite Hpi; eauto). run_handler.
  rewrite Hpi. run_handler.
  destruct (py_truthy (sessionId info)); run_handler; [|by rewrite Hpi].
  destruct (py_hash_key (sessionId info)) as [k|]; run_handler; [|done].
  destruct (active_sessions σ !! k) as [S|] eqn:HS.
  - rewrite bool_decide_eq_true_2 by eauto. run_handler. rewrite HS.
    run_handler. by rewrite Hpi.
  - rewrite bool_decide_eq_false_2 by (by intros [? ?]). run_handler.
    by rewrite Hpi.
Qed.

End HandlerFacts.

(* ===================================================================== *)
(** ** Rooms, audiences and members *)
(* ===================================================================== *)

Section ServerFacts.
Context (s : sio_state).

Lemma elem_of_members_of_enter k sid k' m :
  m ∈ members_of (enter k sid s) k' ↔ m ∈ members_of s k' ∨ (k' = k ∧ m = sid).
Proof.
  unfold members_of, enter. cbn.
  destruct (decide (k = k')) as [->|Hne].
  - rewrite lookup_insert_eq. cbn. set_solver.
  - rewrite lookup_insert_ne by done. naive_solver.
Qed.

Lemma elem_of_members_of_leave_all sid k m :
  m ∈ members_of (leave_all sid s) k ↔ m ∈ members_of s k ∧ m ≠ sid.
Proof.
  unfold members_of, leave_all. cbn. rewrite lookup_fmap.
  destruct (rooms s !! k); cbn; set_solver.
Qed.

Lemma elem_of_audience room skip_sid k R m :
  py_hash_key room = Some k →
  audience s room skip_sid = Some R →
  m ∈ R ↔ m ∈ members_of s k ∧ Some m ≠ skip_sid ∧ m ∈ live s.
Proof.
  unfold audience, participants. intros -> [= <-].
  rewrite elem_of_elements. destruct skip_sid; cbn; set_solver.
Qed.

Lemma audience_NoDup room skip_sid R :
  audience s room skip_sid = Some R → NoDup R.
Proof.
  unfold audience. destruct (participants s room); intros [= <-].
  apply NoDup_elements.
Qed.

Lemma audience_hashable room skip_sid k :
  py_hash_key room = Some k → is_Some (audience s room skip_sid).
Proof. unfold audience, participants. intros ->. cbn. eauto. Qed.

End ServerFacts.

Section MemberFacts.
Context (σ : app_state).

Lemma elem_of_members k S m :
  active_sessions σ !! k = Some S → m ∈ members σ k ↔ m ∈ S.
Proof. unfold members. by intros ->. Qed.

Lemma members_is_Some k m :
  m ∈ members σ k → ∃ S, active_sessions σ !! k = Some S ∧ m ∈ S.
Proof.
  unfold members. destruct (active_sessions σ !! k) as [S|]; cbn; [eauto|set_solver].
Qed.

Lemma elem_of_members_insert pi k S k' m :
  m ∈ members (AppState pi (<[k := S]> (active_sessions σ))) k'
  ↔ if decide (k = k') then m ∈ S else m ∈ members σ k'.
Proof.
  unfold members. cbn. rewrite lookup_insert. by case_decide.
Qed.

End MemberFacts.

(** The transitions, with the handler's cases spelled out. *)
Ltac run_server :=
  cbn [step handle dispatch trace final sio_exec sio_apply List.app fst snd
       application server seen].

Section StepFacts.
Context (Σ : system) (sid : string).

Lemma step_connect :
  step Σ (Connect sid) =
    (System (application Σ) (open_transport sid (server Σ)) (seen Σ ∪ {[sid]}), []).
Proof. done. Qed.

Lemma step_join_not_dict data :
  (∀ d, data ≠ PDict d) → step Σ (JoinSession sid data) = (Σ, []).
Proof.
  intros Hd. run_server. rewrite joinSession_not_dict by done. by destruct Σ.
Qed.

Lemma step_join_unhashable d :
  let info := PInfo (field d "sessionId" PNone) (field d "room" PNone)
                    (field d "playerName" (PStr "Guest")) in
  py_hash_key (field d "sessionId" PNone) = None →
  step Σ (JoinSession sid (PDict d)) =
    (System (AppState (<[sid := info]> (player_info (application Σ)))
                      (active_sessions (application Σ)))
            (server Σ) (seen Σ), []).
Proof. intros info Hk. run_server. by rewrite joinSession_unhashable. Qed.

Lemma step_join_hashable d k :
  let session_id := field d "sessionId" PNone in
  let room := field d "room" PNone in
  let player_name := field d "playerName" (PStr "Guest") in
  let info := PInfo session_id room player_name in
  let s' := enter (HStr (py_str session_id +:+ ":" +:+ py_str room)) sid
              (enter k sid (server Σ)) in
  py_hash_key session_id = Some k →
  step Σ (JoinSession sid (PDict d)) =
    (System (AppState (<[sid := info]> (player_info (application Σ)))
                      (<[k := members (application Σ) k ∪ {[sid]}]>
                         (active_sessions (application Σ))))
            s' (seen Σ),
     [Delivery "playerJoined" (obj [("playerName", player_name); ("room", room)])
        (audience s' session_id (Some sid));
      Delivery "sessionState" initial_state (audience s' (PStr sid) None)]).
Proof.
  intros session_id room player_name info s' Hk. run_server.
  rewrite (joinSession_hashable _ _ _ k) by done.
  fold session_id room.
  destruct (active_sessions (application Σ) !! k); run_server;
    unfold enter_room; by rewrite Hk.
Qed.

Lemma step_action data :
  (step Σ (PlayerAction sid data)).1 = Σ.
Proof.
  destruct Σ as [σ s u]. 
  destruct data as [| | | | |d]; [reflexivity..|]. run_server.
  destruct (py_hash_key (field d "target" PNone)) as [k|] eqn:Hk.
  - by rewrite (playerAction_hashable _ _ _ k) by done.
  - by rewrite playerAction_unhashable by done.
Qed.

Lemma step_action_hashable d k :
  let session_id := field d "sessionId" PNone in
  let room := field d "room" PNone in
  let player_name := field d "playerName" (PStr "Guest") in
  let action := field d "action" PNone in
  let target := field d "target" PNone in
  let delta := PDict [(target, PStr (new_state action))] in
  py_hash_key target = Some k →
  (step Σ (PlayerAction sid (PDict d))).2 =
    [Delivery "actionSuccess"
       (obj [("message", PStr (py_str target +:+ " " +:+ py_str action));
             ("sessionState", obj [("objectStates", delta)])])
       (audience (server Σ) (PStr sid) None);
     Delivery "globalStateUpdate"
       (obj [("objectStates", delta); ("updatedBy", player_name); ("room", room)])
       (audience (server Σ) session_id (Some sid))].
Proof.
  intros session_id room player_name action target delta Hk. run_server.
  by rewrite (playerAction_hashable _ _ _ k).
Qed.

Lemma step_disconnect_unknown :
  player_info (application Σ) !! sid = None →
  step Σ (Disconnect sid) =
    (System (application Σ) (leave_all sid (close_transport sid (server Σ))) (seen Σ), []).
Proof. intros Hpi. run_server. by rewrite disconnect_unknown. Qed.

Lemma step_disconnect_known info :
  player_info (application Σ) !! sid = Some info →
  step Σ (Disconnect sid) =
    let gone := delete sid (player_info (application Σ)) in
    let s1 := close_transport sid (server Σ) in
    let s' := leave_all sid s1 in
    if py_truthy (sessionId info) then
      match py_hash_key (sessionId info) with
      | None => (System (application Σ) s' (seen Σ), [])
      | Some k =>
          match active_sessions (application Σ) !! k with
          | None =>
              (System (AppState gone (active_sessions (application Σ))) s' (seen Σ), [])
          | Some ms =>
              (System (AppState gone (<[k := ms ∖ {[sid]}]>
                                        (active_sessions (application Σ))))
                      s' (seen Σ),
               [Delivery "playerLeft"
                  (obj [("playerName", playerName info); ("room", room info)])
                  (audience s1 (sessionId info) None)])
          end
      end
    else (System (AppState gone (active_sessions (application Σ))) s' (seen Σ), []).
Proof.
  intros Hpi. run_server. rewrite (disconnect_known _ _ info) by done.
  cbv zeta. destruct (py_truthy (sessionId info)); [|done].
  destruct (py_hash_key (sessionId info)) as [k|]; [|done].
  by destruct (active_sessions (application Σ) !! k).
Qed.

Lemma step_request_unknown :
  player_info (application Σ) !! sid = None →
  step Σ (DisconnectRequest sid) =
    (System (application Σ) (leave_all sid (close_transport sid (server Σ))) (seen Σ), []).
Proof. intros Hpi. run_server. by rewrite disconnect_unknown. Qed.

Lemma step_request_known info :
  player_info (application Σ) !! sid = Some info →
  step Σ (DisconnectRequest sid) =
    let gone := delete sid (player_info (application Σ)) in
    let s' := leave_all sid (close_transport sid (server Σ)) in
    if py_truthy (sessionId info) then
      match py_hash_key (sessionId info) with
      | None => (System (application Σ) s' (seen Σ), [])
      | Some k =>
          match active_sessions (application Σ) !! k with
          | None =>
              (System (AppState gone (active_sessions (application Σ))) s' (seen Σ), [])
          | Some ms =>
              (System (AppState gone (<[k := ms ∖ {[sid]}]>
                                        (active_sessions (application Σ))))
                      s' (seen Σ),
               [Delivery "playerLeft"
                  (obj [("playerName", playerName info); ("room", room info)])
                  (audience (server Σ) (sessionId info) None)])
          end
      end
    else (System (AppState gone (active_sessions (application Σ))) s' (seen Σ), []).
Proof.
  intros Hpi. run_server. rewrite (disconnect_known _ _ info) by done.
  cbv zeta. destruct (py_truthy (sessionId info)); [|done].
  destruct (py_hash_key (sessionId info)) as [k|]; [|done].
  by destruct (active_sessions (application Σ) !! k).
Qed.

(** The two kinds of disconnect lead to the same state. *)
Lemma step_request_state :
  (step Σ (DisconnectRequest sid)).1 = (step Σ (Disconnect sid)).1.
Proof.
  destruct (player_info (application Σ) !! sid) as [info|] eqn:Hpi.
  2:{ by rewrite step_request_unknown, step_disconnect_unknown. }
  rewrite (step_request_known info), (step_disconnect_known info) by done.
  cbv zeta. destruct (py_truthy (sessionId info)); [|done].
  destruct (py_hash_key (sessionId info)) as [k|]; [|done].
  by destruct (active_sessions (application Σ) !! k).
Qed.

End StepFacts.

(** ** What holds in every reachable state *)

Lemma elem_of_members_of_open sid s k m :
  m ∈ members_of s k → m ∈ members_of (open_transport sid s) k.
Proof.
  intros Hm. unfold open_transport.
  change (m ∈ members_of (enter HNone sid (enter (HStr sid) sid s)) k).
  rewrite !elem_of_members_of_enter. auto.
Qed.

Lemma live_open_transport sid s : live (open_transport sid s) = live s ∪ {[sid]}.
Proof. done. Qed.

Lemma live_leave_close sid s :
  live (leave_all sid (close_transport sid s)) = live s ∖ {[sid]}.
Proof. done. Qed.

Lemma live_enter k sid s : live (enter k sid s) = live s.
Proof. done. Qed.

Ltac split_inv :=
  split; cbn [application server seen fst snd player_info active_sessions];
  rewrite ?live_open_transport, ?live_leave_close, ?live_enter.

Lemma inv_init : inv init.
Proof.
  split; cbn; unfold members; cbn; intros *; rewrite ?lookup_empty; set_solver.
Qed.

Lemma inv_connect Σ sid : inv Σ → sid ∉ seen Σ → inv (step Σ (Connect sid)).1.
Proof.
  intros [H1 H2 H3 H4 H5] Hfresh. rewrite step_connect. split_inv.
  - set_solver.
  - intros k m Hm. specialize (H2 k m Hm). set_solver.
  - intros k m Hm [Hl| ->%elem_of_singleton]%elem_of_union.
    + apply elem_of_members_of_open. by apply H3.
    + destruct Hfresh. by apply (H2 k).
  - done.
  - intros m [Hl| ->%elem_of_singleton]%elem_of_union.
    + apply elem_of_members_of_open. by apply H5.
    + change (sid ∈ members_of (enter HNone sid (enter (HStr sid) sid (server Σ)))
                      (HStr sid)).
      rewrite !elem_of_members_of_enter. auto.
Qed.

Lemma inv_join Σ sid data :
  inv Σ → sid ∈ live (server Σ) → inv (step Σ (JoinSession sid data)).1.
Proof.
  intros [H1 H2 H3 H4 H5] Hlive.
  destruct data as [| | | | |d];
    try (rewrite step_join_not_dict by done; by split_inv).
  destruct (py_hash_key (field d "sessionId" PNone)) as [k|] eqn:Hk.
  - rewrite (step_join_hashable _ _ _ k) by done. split_inv.
    + done.
    + intros k' m. rewrite elem_of_members_insert. case_decide; [|by apply H2].
      intros [Hm| ->%elem_of_singleton]%elem_of_union; [by eapply H2|by apply H1].
    + intros k' m. rewrite elem_of_members_insert, !elem_of_members_of_enter.
      case_decide as Hkk; [subst k'|by auto].
      intros [Hm| ->%elem_of_singleton]%elem_of_union; auto.
    + intros sid' info k'. rewrite lookup_insert, elem_of_members_insert.
      case_decide as Hs; [subst sid'|].
      * intros [= <-]. cbn. rewrite Hk. intros [= <-].
        rewrite decide_True by done. set_solver.
      * intros Hi Hk'. specialize (H4 _ _ _ Hi Hk'). case_decide; [subst|done].
        set_solver.
    + intros m Hm. rewrite !elem_of_members_of_enter. auto.
  - rewrite step_join_unhashable by done. split_inv; try done.
    intros sid' info k'. rewrite lookup_insert.
    case_decide as Hs; [subst sid'|by apply H4].
    intros [= <-]. cbn. by rewrite Hk.
Qed.

(** Leaving: the registry loses [sid]; the sessions either stay or lose
    [sid] from one of them. *)
Lemma inv_leave Σ sid sessions :
  inv Σ →
  (∀ k m, m ∈ members (AppState ∅ sessions) k → m ∈ members (application Σ) k) →
  (∀ k m, m ≠ sid → m ∈ members (application Σ) k → m ∈ members (AppState ∅ sessions) k) →
  inv (System (AppState (delete sid (player_info (application Σ))) sessions)
              (leave_all sid (close_transport sid (server Σ))) (seen Σ)).
Proof.
  intros [H1 H2 H3 H4 H5] Hsub Hsup. split_inv.
  - set_solver.
  - intros k m Hm. apply (H2 k), Hsub, Hm.
  - intros k m Hm [Hl Hne%not_elem_of_singleton]%elem_of_difference.
    apply elem_of_members_of_leave_all. split; [|done].
    apply H3; [|done]. apply Hsub, Hm.
  - intros sid' info k [Hne Hi]%lookup_delete_Some Hk.
    apply (Hsup k sid'); [done|]. by eapply H4.
  - intros m [Hl Hne%not_elem_of_singleton]%elem_of_difference.
    apply elem_of_members_of_leave_all. split; [|done]. by apply H5.
Qed.

Lemma inv_disconnect Σ sid : inv Σ → inv (step Σ (Disconnect sid)).1.
Proof.
  intros HI.
  destruct (player_info (application Σ) !! sid) as [info|] eqn:Hpi.
  2:{ rewrite step_disconnect_unknown by done. destruct HI as [H1 H2 H3 H4 H5].
      split_inv; [set_solver|done| |done| ].
      - intros k m Hm [Hl Hne%not_elem_of_singleton]%elem_of_difference.
        apply elem_of_members_of_leave_all. split; [|done]. by apply H3.
      - intros m [Hl Hne%not_elem_of_singleton]%elem_of_difference.
        apply elem_of_members_of_leave_all. split; [|done]. by apply H5. }
  rewrite (step_disconnect_known _ _ info) by done. cbv zeta.
  assert (Hkeep : inv (System (AppState (delete sid (player_info (application Σ)))
                                 (active_sessions (application Σ)))
                         (leave_all sid (close_transport sid (server Σ))) (seen Σ))).
  { by apply inv_leave. }
  destruct (py_truthy (sessionId info)); [|done].
  destruct (py_hash_key (sessionId info)) as [k|] eqn:Hk.
  2:{ destruct HI as [H1 H2 H3 H4 H5]. split_inv; [set_solver|done| |done| ].
      - intros k m Hm [Hl Hne%not_elem_of_singleton]%elem_of_difference.
        apply elem_of_members_of_leave_all. split; [|done]. by apply H3.
      - intros m [Hl Hne%not_elem_of_singleton]%elem_of_difference.
        apply elem_of_members_of_leave_all. split; [|done]. by apply H5. }
  destruct (active_sessions (application Σ) !! k) as [ms|] eqn:Hms; [|done].
  cbn [fst]. apply inv_leave; [done|..].
  - intros k' m. rewrite elem_of_members_insert. case_decide; [subst k'|done].
    intros [Hm _]%elem_of_difference. by rewrite (elem_of_members _ _ ms).
  - intros k' m Hne Hm. rewrite elem_of_members_insert. case_decide; [subst k'|done].
    rewrite (elem_of_members _ _ ms) in Hm by done. set_solver.
Qed.

Lemma inv_step Σ e : inv Σ → enabled Σ e = true → inv (step Σ e).1.
Proof.
  intros HI He. destruct e as [sid|sid|sid data|sid data|sid]; cbn in He.
  - apply inv_connect; [done|]. by apply bool_decide_eq_true_1 in He.
  - by apply inv_disconnect.
  - apply inv_join; [done|]. by apply bool_decide_eq_true_1 in He.
  - by rewrite step_action.
  - rewrite step_request_state. by apply inv_disconnect.
Qed.

Lemma inv_run es : ∀ Σ Σ', inv Σ → run es Σ = Some Σ' → inv Σ'.
Proof.
  induction es as [|e es IH]; intros Σ Σ' HI; cbn.
  - by intros [= <-].
  - destruct (enabled Σ e) eqn:He; [|done]. apply IH. by apply inv_step.
Qed.

Lemma inv_reachable Σ : reachable Σ → inv Σ.
Proof. intros [es Hes]. eapply inv_run; [apply inv_init|done]. Qed.

Lemma audience_spec s room skip_sid k :
  py_hash_key room = Some k →
  ∃ R, audience s room skip_sid = Some R ∧ NoDup R ∧
       ∀ m, m ∈ R ↔ m ∈ members_of s k ∧ Some m ≠ skip_sid ∧ m ∈ live s.
Proof.
  intros Hk. destruct (audience_hashable s room skip_sid k Hk) as [R HR].
  exists R. split; [done|]. split; [by eapply audience_NoDup|].
  intros m. by eapply elem_of_audience.
Qed.

Lemma field_missing d key dflt :
  py_dict_lookup d (HStr key) = None → field d key dflt = dflt.
Proof. unfold field. by intros ->. Qed.

Lemma reachable_after es : run es init = Some (after es) → reachable (after es).
Proof. intros H. by exists es. Qed.

(* ===================================================================== *)
(** ** The properties *)
(* ===================================================================== *)

(** *** C1: what a joiner is told about the elements *)

(** C1, as the handlers have it.  No Action writes to any store of element
    states (the handlers keep none: an Action leaves the whole process state
    as it was), and a connection that joins or rejoins a session identifier
    receives, in the [sessionState] reply addressed to it, the fixed default
    snapshot [initial_state], whatever happened before. *)
Theorem join_reply_is_default_snapshot
    (Σ : system) (sid : string) (d : list (pyval * pyval)) (k : hkey) :
  reachable Σ →
  enabled Σ (JoinSession sid (PDict d)) = true →
  py_hash_key (field d "sessionId" PNone) = Some k →
  (∀ c a, (step Σ (PlayerAction c a)).1 = Σ) ∧
  ∃ R,
    deliveries_of "sessionState" (step Σ (JoinSession sid (PDict d))).2 =
      [Delivery "sessionState" initial_state (Some R)] ∧
    sid ∈ R.
Proof.
  intros [_ _ _ _ Hpriv]%inv_reachable Hlive%bool_decide_eq_true_1 Hk.
  split; [intros c a; apply step_action|].
  rewrite (step_join_hashable _ _ _ k) by done. cbn [snd].
  set (s' := enter _ sid (enter k sid (server Σ))).
  destruct (audience_spec s' (PStr sid) None (HStr sid) eq_refl)
    as (R & -> & _ & HR).
  exists R. split; [reflexivity|]. apply HR. split; [|done].
  unfold s'. rewrite !elem_of_members_of_enter. left. left. by apply Hpriv.
Qed.

(** Y joining S1 after X switched the oven on is such a Join. *)
Lemma join_reply_is_default_snapshot_witness :
  (∀ c a, (step (after oven_switched_on) (PlayerAction c a)).1 = after oven_switched_on) ∧
  ∃ R,
    deliveries_of "sessionState"
      (step (after oven_switched_on) (JoinSession Y (joins "S1" "kitchen" "Bob"))).2 =
      [Delivery "sessionState" initial_state (Some R)] ∧
    Y ∈ R.
Proof.
  apply (join_reply_is_default_snapshot (after oven_switched_on) Y _ (HStr "S1")).
  - apply reachable_after. vm_compute. reflexivity.
  - vm_compute. reflexivity.
  - vm_compute. reflexivity.
Defined.

(** C1 as stated fails.  X joins S1 and switches the oven on (the action
    resolves to ["on"]); Y then joins S1 and is told the oven is ["off"]. *)
Lemma rejoin_after_action_gets_default :
  run oven_switched_on init = Some (after oven_switched_on) ∧
  new_state (PStr "on") = "on" ∧
  ∃ reply,
    deliveries_of "sessionState"
      (step (after oven_switched_on) (JoinSession Y (joins "S1" "kitchen" "Bob"))).2 =
      [Delivery "sessionState" reply (Some [Y])] ∧
    object_state reply "forno" = Some (PStr "off") ∧
    object_state reply "forno" ≠ Some (PStr (new_state (PStr "on"))).
Proof.
  split; [by vm_compute|]. split; [done|].
  exists initial_state. split; [by vm_compute|]. by split.
Qed.

(** *** C2: the default snapshot *)

(** C2, as the handlers have it.  The [sessionState] reply of every Join
    that completes carries an [objectStates] mapping with exactly the five
    keys forno, frigo, cassetto, valvola_gas and finestra, valued "off",
    "off", "chiuso", "chiusa" and "chiusa"; a joiner observes
    [objectStates.forno == "off"]. *)
Theorem join_reply_object_states
    (σ : app_state) (sid : string) (d : list (pyval * pyval)) (k : hkey) :
  py_hash_key (field d "sessionId" PNone) = Some k →
  ∃ reply states,
    filter (λ e, is_emit "sessionState" e = true) (trace (joinSession sid (PDict d) σ)) =
      [Emit "sessionState" reply (PStr sid) None] ∧
    item reply "objectStates" = Some states ∧
    states = obj [("forno", PStr "off"); ("frigo", PStr "off");
                  ("cassetto", PStr "chiuso"); ("valvola_gas", PStr "chiusa");
                  ("finestra", PStr "chiusa")] ∧
    object_state reply "forno" = Some (PStr "off").
Proof.
  intros Hk. rewrite (joinSession_hashable _ _ _ k) by done. cbn [trace].
  exists initial_state. eexists. split; [|split; [reflexivity|split; reflexivity]].
  by destruct (active_sessions σ !! k).
Qed.

(** The first Join into the fresh session S1. *)
Lemma join_reply_object_states_witness :
  ∃ reply states,
    filter (λ e, is_emit "sessionState" e = true)
      (trace (joinSession X (joins "S1" "kitchen" "Alice") app_init)) =
      [Emit "sessionState" reply (PStr X) None] ∧
    item reply "objectStates" = Some states ∧
    states = obj [("forno", PStr "off"); ("frigo", PStr "off");
                  ("cassetto", PStr "chiuso"); ("valvola_gas", PStr "chiusa");
                  ("finestra", PStr "chiusa")] ∧
    object_state reply "forno" = Some (PStr "off").
Proof.
  apply (join_reply_object_states app_init X _ (HStr "S1")).
  vm_compute. reflexivity.
Defined.

(** C2 as stated fails.  The first joiner of the fresh session S1 receives
    a snapshot with no key "oven" (nor "fridge", "drawer", "gas_valve",
    "window"). *)
Lemma first_join_reply_has_no_oven :
  ∃ reply,
    deliveries_of "sessionState"
      (step (after [Connect X]) (JoinSession X (joins "S1" "kitchen" "Alice"))).2 =
      [Delivery "sessionState" reply (Some [X])] ∧
    object_state reply "oven" = None ∧
    object_state reply "fridge" = None ∧
    object_state reply "drawer" = None ∧
    object_state reply "gas_valve" = None ∧
    object_state reply "window" = None.
Proof. exists initial_state. split; [by vm_compute|]. by repeat split. Qed.

(** *** C3: the action resolver *)

(** C3.  The new state of an Action is a function of the action token alone:
    "on" gives "on", "open" gives "aperto", "off" gives "off", and any other
    value (the empty string, another spelling, no token at all) gives
    "chiuso"; both events of the Action carry it as the state of the target,
    whatever the target is. *)
Theorem new_state_by_token (action : pyval) :
  (action = PStr "on" → new_state action = "on") ∧
  (action = PStr "open" → new_state action = "aperto") ∧
  (action = PStr "off" → new_state action = "off") ∧
  (action ≠ PStr "on" → action ≠ PStr "open" → action ≠ PStr "off" →
     new_state action = "chiuso") ∧
  (∀ σ sid d k,
     field d "action" PNone = action →
     py_hash_key (field d "target" PNone) = Some k →
     let delta := PDict [(field d "target" PNone, PStr (new_state action))] in
     delta_of <$> trace (playerAction sid (PDict d) σ) = [Some delta; Some delta]).
Proof.
  repeat split.
  - by intros ->.
  - by intros ->.
  - by intros ->.
  - intros H1 H2 H3. unfold new_state, py_eq_str.
    destruct action as [| | |s| |]; try done.
    destruct (String.eqb_spec s "on") as [->|_]; [done|].
    destruct (String.eqb_spec s "open") as [->|_]; [done|].
    by destruct (String.eqb_spec s "off") as [->|_].
  - intros σ sid d k <- Hk delta.
    by rewrite (playerAction_hashable _ _ _ k).
Qed.

(** The empty token, on the oven. *)
Lemma new_state_by_token_witness :
  new_state (PStr "") = "chiuso" ∧
  delta_of <$> trace (playerAction X (acts "S1" "kitchen" "Alice" "" "forno") app_init) =
    [Some (PDict [(PStr "forno", PStr "chiuso")]);
     Some (PDict [(PStr "forno", PStr "chiuso")])].
Proof.
  destruct (new_state_by_token (PStr "")) as (_ & _ & _ & Hother & Hevents).
  split.
  - apply Hother; discriminate.
  - exact (Hevents app_init X (action_fields "S1" "kitchen" "Alice" "" "forno")
             (HStr "forno") eq_refl eq_refl).
Defined.

(** *** C4: who a session-wide broadcast reaches *)

(** C4.  In every reachable state, when a connection C joins a session or
    acts in it and the handler completes, the session-wide notice
    ([playerJoined], [globalStateUpdate]) is emitted once; C is not among
    its recipients, no recipient occurs twice, and every other connection
    that is in the membership set of that session is a recipient.  (A
    connection is a client whose transport is open; the membership set may
    still list the [sid] of a closed one.) *)
Theorem broadcast_skips_sender_reaches_others
    (Σ : system) (e : event) (name : string) (k : hkey) :
  reachable Σ →
  enabled Σ e = true →
  broadcast_name e = Some name →
  named_session e = Some k →
  result (handle e (application Σ)) = Returned () →
  ∃ payload R,
    deliveries_of name (step Σ e).2 = [Delivery name payload (Some R)] ∧
    (sender e ∉ R) ∧
    NoDup R ∧
    ∀ m, m ∈ members (application (step Σ e).1) k →
         m ≠ sender e → m ∈ live (server Σ) → m ∈ R.
Proof.
  intros [_ _ Hroom _ _]%inv_reachable _ Hname Hk Hret.
  destruct e as [sid|sid|sid [| | | | |d]|sid [| | | | |d]|sid]; try done;
    cbn in Hname, Hk; injection Hname as <-; cbn [sender handle] in *.
  - (* joinSession *)
    rewrite (step_join_hashable _ _ _ k) by done. cbn [fst snd application].
    set (s' := enter _ sid (enter k sid (server Σ))).
    destruct (audience_spec s' (field d "sessionId" PNone) (Some sid) k Hk)
      as (R & -> & Hnd & HR).
    eexists _, R. split; [reflexivity|]. split; [|split; [done|]].
    + rewrite HR. naive_solver.
    + intros m Hm Hne Hlive. apply HR. split; [|split; [congruence|done]].
      apply elem_of_members_insert in Hm. rewrite decide_True in Hm by done.
      unfold s'. rewrite !elem_of_members_of_enter. left. left.
      apply Hroom; [set_solver|done].
  - (* playerAction *)
    destruct (py_hash_key (field d "target" PNone)) as [kt|] eqn:Hkt.
    2:{ by rewrite playerAction_unhashable in Hret. }
    rewrite step_action, (step_action_hashable _ _ _ kt) by done.
    destruct (audience_spec (server Σ) (field d "sessionId" PNone) (Some sid) k Hk)
      as (R & -> & Hnd & HR).
    eexists _, R. split; [reflexivity|]. split; [|split; [done|]].
    + rewrite HR. naive_solver.
    + intros m Hm Hne Hlive. apply HR. split; [|split; [congruence|done]].
      by apply Hroom.
Qed.

(** X acting in S1 once X and Y have joined it. *)
Lemma broadcast_skips_sender_reaches_others_witness :
  ∃ payload R,
    deliveries_of "globalStateUpdate"
      (step (after both_joined)
            (PlayerAction X (acts "S1" "kitchen" "Alice" "on" "forno"))).2 =
      [Delivery "globalStateUpdate" payload (Some R)] ∧
    (X ∉ R) ∧
    NoDup R ∧
    ∀ m, m ∈ members
               (application
                  (step (after both_joined)
                        (PlayerAction X (acts "S1" "kitchen" "Alice" "on" "forno"))).1)
               (HStr "S1") →
         m ≠ X → m ∈ live (server (after both_joined)) → m ∈ R.
Proof.
  apply (broadcast_skips_sender_reaches_others (after both_joined)
           (PlayerAction X (acts "S1" "kitchen" "Alice" "on" "forno"))
           "globalStateUpdate" (HStr "S1")).
  - apply reachable_after. vm_compute. reflexivity.
  - vm_compute. reflexivity.
  - reflexivity.
  - vm_compute. reflexivity.
  - vm_compute. reflexivity.
Defined.

(** *** C5: one session per connection *)

(** C5 does not hold of the handlers.  X joins session A and then session B:
    [joinSession] overwrites [player_info[X]] and adds X to B without taking
    it out of A, so X is in both membership sets. *)
Lemma rejoin_keeps_first_membership :
  run joined_twice init = Some (after joined_twice) ∧
  X ∈ members (application (after joined_twice)) (HStr "A") ∧
  X ∈ members (application (after joined_twice)) (HStr "B").
Proof. split; [|split]; by vm_compute. Qed.

(** *** C6: leaving a session *)

(** C6, as the handlers have it.  In every reachable state, when a
    connection registered under a session identifier that is truthy (a
    non-empty string, say) disconnects, whether its transport was lost
    ([Disconnect]) or it asked to leave ([DisconnectRequest]), it was a
    member of that session, it is taken out of the membership set and out of
    nothing else, the set has one member fewer, and one [playerLeft] notice
    with its name and room goes, once each, to every other connected member
    of the set.  The handler skips nobody: the departing connection is a
    recipient as well exactly when it asked to leave, its transport being
    open while the handler runs. *)
Theorem disconnect_leaves_session
    (Σ : system) (e : event) (sid : string) (info : pinfo) (k : hkey) :
  reachable Σ →
  e = Disconnect sid ∨ e = DisconnectRequest sid →
  enabled Σ e = true →
  player_info (application Σ) !! sid = Some info →
  py_truthy (sessionId info) = true →
  py_hash_key (sessionId info) = Some k →
  let members_before := members (application Σ) k in
  let members_after := members (application (step Σ e).1) k in
  sid ∈ members_before ∧
  members_after = members_before ∖ {[sid]} ∧
  size members_before = S (size members_after) ∧
  ∃ R,
    (step Σ e).2 =
      [Delivery "playerLeft"
         (obj [("playerName", playerName info); ("room", room info)]) (Some R)] ∧
    NoDup R ∧
    (∀ m, m ∈ members_before → m ≠ sid → m ∈ live (server Σ) → m ∈ R) ∧
    (sid ∈ R ↔ e = DisconnectRequest sid).
Proof.
  intros [_ _ Hroom Hann _]%inv_reachable He Hen Hpi Ht Hk before now.
  assert (Hlive : sid ∈ live (server Σ)).
  { destruct He as [-> | ->]; cbn [enabled] in Hen;
      by apply bool_decide_eq_true in Hen. }
  assert (Hin : sid ∈ before) by (by eapply Hann).
  destruct (members_is_Some _ _ _ Hin) as (ms & Hms & _).
  assert (Hbefore : before = ms) by (unfold before, members; by rewrite Hms).
  assert (Hafter : now = before ∖ {[sid]}).
  { unfold now. replace (step Σ e).1 with (step Σ (Disconnect sid)).1
      by (destruct He as [-> | ->]; [done|by rewrite step_request_state]).
    rewrite (step_disconnect_known _ _ info) by done.
    cbv zeta. rewrite Ht, Hk, Hms. cbn [fst application].
    unfold members. cbn [active_sessions]. rewrite lookup_insert_eq.
    by rewrite Hbefore. }
  split; [done|]. split; [done|]. split.
  { rewrite Hafter, (size_difference before {[sid]}) by set_solver.
    rewrite size_singleton. assert (size before ≠ 0%nat); [|lia].
    apply size_non_empty_iff. set_solver. }
  destruct He as [-> | ->].
  - rewrite (step_disconnect_known _ _ info) by done.
    cbv zeta. rewrite Ht, Hk, Hms. cbn [snd].
    destruct (audience_spec (close_transport sid (server Σ)) (sessionId info) None k Hk)
      as (R & -> & Hnd & HR).
    exists R. split; [done|]. split; [done|]. split.
    + intros m Hm Hne Hl. apply HR. split; [|split; [done|]].
      * by apply Hroom.
      * cbn [live close_transport]. set_solver.
    + split; [|done]. rewrite HR. cbn [live close_transport]. set_solver.
  - rewrite (step_request_known _ _ info) by done.
    cbv zeta. rewrite Ht, Hk, Hms. cbn [snd].
    destruct (audience_spec (server Σ) (sessionId info) None k Hk)
      as (R & -> & Hnd & HR).
    exists R. split; [done|]. split; [done|]. split.
    + intros m Hm Hne Hl. apply HR. split; [|split; [done|done]].
      by apply Hroom.
    + split; [done|]. intros _. apply HR. split; [|split; [done|done]].
      by apply Hroom.
Qed.

(** X asks to leave S1 once X and Y have joined it: the notice goes to X
    too. *)
Lemma disconnect_leaves_session_witness :
  X ∈ members (application (after both_joined)) (HStr "S1") ∧
  members (application (step (after both_joined) (DisconnectRequest X)).1) (HStr "S1") =
    members (application (after both_joined)) (HStr "S1") ∖ {[X]} ∧
  size (members (application (after both_joined)) (HStr "S1")) =
    S (size (members (application (step (after both_joined) (DisconnectRequest X)).1)
               (HStr "S1"))) ∧
  ∃ R,
    (step (after both_joined) (DisconnectRequest X)).2 =
      [Delivery "playerLeft"
         (obj [("playerName", PStr "Alice"); ("room", PStr "kitchen")]) (Some R)] ∧
    NoDup R ∧
    (∀ m, m ∈ members (application (after both_joined)) (HStr "S1") →
          m ≠ X → m ∈ live (server (after both_joined)) → m ∈ R) ∧
    (X ∈ R ↔ DisconnectRequest X = DisconnectRequest X).
Proof.
  apply (disconnect_leaves_session (after both_joined) (DisconnectRequest X) X
           (PInfo (PStr "S1") (PStr "kitchen") (PStr "Alice")) (HStr "S1")).
  - apply reachable_after. vm_compute. reflexivity.
  - right. reflexivity.
  - vm_compute. reflexivity.
  - vm_compute. reflexivity.
  - reflexivity.
  - reflexivity.
Defined.

(** C6 as stated fails, in two ways.  X joins the session whose identifier
    is the empty string and disconnects: the guard [if session_id and ...]
    is false, so X stays in the membership set, whose size does not change,
    and no [playerLeft] is emitted.  And once X and Y have joined S1 and X
    asks to leave, the one [playerLeft] notice is delivered to X as well as
    to Y: the departed connection is not excluded. *)
Lemma disconnect_of_unnamed_session_keeps_member :
  (run joined_unnamed init = Some (after joined_unnamed) ∧
   X ∈ members (application (after joined_unnamed)) (HStr "") ∧
   X ∈ members (application (step (after joined_unnamed) (Disconnect X)).1) (HStr "") ∧
   size (members (application (step (after joined_unnamed) (Disconnect X)).1) (HStr "")) =
     size (members (application (after joined_unnamed)) (HStr "")) ∧
   (step (after joined_unnamed) (Disconnect X)).2 = []) ∧
  (run both_joined init = Some (after both_joined) ∧
   enabled (after both_joined) (DisconnectRequest X) = true ∧
   ∃ R,
     (step (after both_joined) (DisconnectRequest X)).2 =
       [Delivery "playerLeft"
          (obj [("playerName", PStr "Alice"); ("room", PStr "kitchen")]) (Some R)] ∧
     X ∈ R ∧ Y ∈ R).
Proof.
  split; [repeat split; by vm_compute|].
  split; [by vm_compute|]. split; [by vm_compute|].
  eexists. split; [vm_compute; reflexivity|].
  split; apply (bool_decide_unpack _); by vm_compute.
Qed.

(** *** C7: disconnecting twice, or before joining *)

(** C7.  [disconnect] for a connection that has no entry in [player_info]
    (it never joined, or a [disconnect] for it has already completed)
    returns without raising, changes neither registry and makes no call on
    the server: in particular it emits no [playerLeft]. *)
Theorem disconnect_unannounced_is_noop (σ : app_state) (sid : string) :
  (player_info σ !! sid = None ∨
   ∃ σ0, result (disconnect sid σ0) = Returned () ∧ σ = final (disconnect sid σ0)) →
  disconnect sid σ = Ran σ [] (Returned ()).
Proof.
  intros H. apply disconnect_unknown. destruct H as [H|(σ0 & Hret & ->)]; [done|].
  destruct (player_info σ0 !! sid) as [info|] eqn:Hpi.
  2:{ by rewrite disconnect_unknown. }
  rewrite (disconnect_known _ _ info) in Hret |- * by done. cbv zeta in *.
  destruct (py_truthy (sessionId info)); [|apply lookup_delete_eq].
  destruct (py_hash_key (sessionId info)) as [k|]; [|done].
  destruct (active_sessions σ0 !! k); apply lookup_delete_eq.
Qed.

(** A second [disconnect] for X. *)
Lemma disconnect_unannounced_is_noop_witness :
  disconnect X (final (disconnect X (application (after both_joined)))) =
    Ran (final (disconnect X (application (after both_joined)))) [] (Returned ()).
Proof.
  apply disconnect_unannounced_is_noop. right.
  exists (application (after both_joined)). split; [|reflexivity].
  vm_compute. reflexivity.
Defined.

(** *** C8: the order of a Join's effects *)

(** C8, as the handlers have it.  A Join that completes performs its effects
    in this order: it registers the announcement in [player_info], adds the
    connection to the membership set of the session (creating the set
    first when the session is new), enters the two rooms, broadcasts
    [playerJoined] to the other members, and only after that sends the
    [sessionState] reply to the caller. *)
Theorem joinSession_effect_order
    (σ : app_state) (sid : string) (d : list (pyval * pyval)) (k : hkey) :
  let session_id := field d "sessionId" PNone in
  let room := field d "room" PNone in
  let player_name := field d "playerName" (PStr "Guest") in
  let t := trace (joinSession sid (PDict d) σ) in
  py_hash_key session_id = Some k →
  (∃ create,
     (create = [] ∨ create = [NewSession k]) ∧
     t = [SetPlayerInfo sid (PInfo session_id room player_name)]
         ++ create
         ++ [AddMember k sid;
             EnterRoom sid session_id;
             EnterRoom sid (PStr (py_str session_id +:+ ":" +:+ py_str room));
             Emit "playerJoined"
               (obj [("playerName", player_name); ("room", room)])
               session_id (Some sid);
             Emit "sessionState" initial_state (PStr sid) None]) ∧
  emits_before "playerJoined" "sessionState" t = true ∧
  emits_before "sessionState" "playerJoined" t = false.
Proof.
  intros session_id room player_name t Hk. unfold t.
  rewrite (joinSession_hashable _ _ _ k) by done. cbn [trace].
  destruct (active_sessions σ !! k).
  - split; [exists []; by split; [left|]|done].
  - split; [exists [NewSession k]; by split; [right|]|done].
Qed.

(** X joining the fresh session S1. *)
Lemma joinSession_effect_order_witness :
  (∃ create,
     (create = [] ∨ create = [NewSession (HStr "S1")]) ∧
     trace (joinSession X (joins "S1" "kitchen" "Alice") app_init) =
       [SetPlayerInfo X (PInfo (PStr "S1") (PStr "kitchen") (PStr "Alice"))]
       ++ create
       ++ [AddMember (HStr "S1") X;
           EnterRoom X (PStr "S1");
           EnterRoom X (PStr "S1:kitchen");
           Emit "playerJoined"
             (obj [("playerName", PStr "Alice"); ("room", PStr "kitchen")])
             (PStr "S1") (Some X);
           Emit "sessionState" initial_state (PStr X) None]) ∧
  emits_before "playerJoined" "sessionState"
    (trace (joinSession X (joins "S1" "kitchen" "Alice") app_init)) = true ∧
  emits_before "sessionState" "playerJoined"
    (trace (joinSession X (joins "S1" "kitchen" "Alice") app_init)) = false.
Proof.
  exact (joinSession_effect_order app_init X (join_fields "S1" "kitchen" "Alice")
           (HStr "S1") eq_refl).
Defined.

(** C8 as stated fails.  When X joins S1, no [sessionState] is emitted
    before the [playerJoined] broadcast: the broadcast comes first. *)
Lemma join_broadcasts_before_reply :
  emits_before "sessionState" "playerJoined"
    (trace (joinSession X (joins "S1" "kitchen" "Alice") app_init)) = false ∧
  emits_before "playerJoined" "sessionState"
    (trace (joinSession X (joins "S1" "kitchen" "Alice") app_init)) = true.
Proof. split; by vm_compute. Qed.

(** *** C9: payloads with missing or malformed fields *)

(** C9, as the handlers have it.  For a payload that is an object, a Join
    whose [sessionId] is missing or hashable (null, a boolean, a number, a
    string) and an Action whose [target] and [sessionId] are each missing or
    hashable return without raising, whatever other fields are missing;
    when [playerName] is missing the name registered and broadcast is
    "Guest".  A Join whose [sessionId] is a list or a dictionary and an
    Action whose [target] is one raise [TypeError]; a payload that is not an
    object raises [AttributeError]. *)
Theorem join_and_action_tolerate_missing_fields
    (σ : app_state) (sid : string) (d : list (pyval * pyval)) :
  let session_id := field d "sessionId" PNone in
  let room := field d "room" PNone in
  let target := field d "target" PNone in
  let delta := PDict [(target, PStr (new_state (field d "action" PNone)))] in
  (py_dict_lookup d (HStr "sessionId") = None ∨ is_Some (py_hash_key session_id) →
   result (joinSession sid (PDict d) σ) = Returned () ∧
   (py_dict_lookup d (HStr "playerName") = None →
    player_info (final (joinSession sid (PDict d) σ)) !! sid
      = Some (PInfo session_id room (PStr "Guest")) ∧
    Emit "playerJoined" (obj [("playerName", PStr "Guest"); ("room", room)])
      session_id (Some sid) ∈ trace (joinSession sid (PDict d) σ))) ∧
  (py_dict_lookup d (HStr "target") = None ∨ is_Some (py_hash_key target) →
   py_dict_lookup d (HStr "sessionId") = None ∨ is_Some (py_hash_key session_id) →
   result (playerAction sid (PDict d) σ) = Returned () ∧
   (py_dict_lookup d (HStr "playerName") = None →
    Emit "globalStateUpdate"
      (obj [("objectStates", delta); ("updatedBy", PStr "Guest"); ("room", room)])
      session_id (Some sid) ∈ trace (playerAction sid (PDict d) σ))) ∧
  (py_hash_key session_id = None →
   result (joinSession sid (PDict d) σ) = Raised TypeError) ∧
  (py_hash_key target = None →
   result (playerAction sid (PDict d) σ) = Raised TypeError) ∧
  (∀ data, (∀ d', data ≠ PDict d') →
   result (joinSession sid data σ) = Raised AttributeError ∧
   result (playerAction sid data σ) = Raised AttributeError).
Proof.
  intros session_id room target delta.
  assert (Hsome : ∀ key, py_dict_lookup d (HStr key) = None
                         ∨ is_Some (py_hash_key (field d key PNone)) →
                         ∃ k, py_hash_key (field d key PNone) = Some k).
  { intros key [H|[k H]]; [|by exists k].
    exists HNone. unfold field. by rewrite H. }
  split; [|split; [|split; [|split]]].
  - intros [k Hk]%Hsome.
    rewrite (joinSession_hashable _ _ _ k) by done. cbn [result final trace].
    split; [done|]. intros Hname. rewrite !(field_missing d "playerName") by done.
    cbn [player_info]. rewrite lookup_insert_eq.
    split; [done|]. rewrite elem_of_cons, elem_of_app, !elem_of_cons.
    right. right. do 3 right. by left.
  - intros [k Hk]%Hsome [ks Hks]%Hsome.
    rewrite (playerAction_hashable _ _ _ k) by done. cbn [result final trace].
    rewrite Hks. split; [done|]. intros Hname.
    rewrite !(field_missing d "playerName") by done.
    rewrite !elem_of_cons. right. by left.
  - intros Hk. by rewrite joinSession_unhashable.
  - intros Hk. by rewrite playerAction_unhashable.
  - intros data Hd. by rewrite joinSession_not_dict, playerAction_not_dict.
Qed.

(** The empty payload: every field is missing. *)
Lemma join_and_action_tolerate_missing_fields_witness :
  (result (joinSession X (PDict []) app_init) = Returned () ∧
   player_info (final (joinSession X (PDict []) app_init)) !! X
     = Some (PInfo PNone PNone (PStr "Guest")) ∧
   Emit "playerJoined" (obj [("playerName", PStr "Guest"); ("room", PNone)])
     PNone (Some X) ∈ trace (joinSession X (PDict []) app_init)) ∧
  (result (playerAction X (PDict []) app_init) = Returned () ∧
   Emit "globalStateUpdate"
     (obj [("objectStates", PDict [(PNone, PStr "chiuso")]);
           ("updatedBy", PStr "Guest"); ("room", PNone)])
     PNone (Some X) ∈ trace (playerAction X (PDict []) app_init)).
Proof.
  destruct (join_and_action_tolerate_missing_fields app_init X [])
    as (Hjoin & Haction & _).
  split.
  - destruct (Hjoin (or_introl eq_refl)) as [Hret Hguest].
    split; [exact Hret|]. exact (Hguest eq_refl).
  - destruct (Haction (or_introl eq_refl) (or_introl eq_refl)) as [Hret Hguest].
    split; [exact Hret|]. exact (Hguest eq_refl).
Defined.

(** C9 as stated fails.  A Join whose [sessionId] is a list raises
    [TypeError] (after registering the announcement, before any reply); an
    Action whose [target] is a dictionary raises [TypeError]; a payload that
    is not an object raises [AttributeError]. *)
Lemma malformed_payloads_raise :
  result (joinSession X (obj [("sessionId", PList [PStr "S1"])]) app_init)
    = Raised TypeError ∧
  trace (joinSession X (obj [("sessionId", PList [PStr "S1"])]) app_init)
    = [SetPlayerInfo X (PInfo (PList [PStr "S1"]) PNone (PStr "Guest"))] ∧
  result (playerAction X (obj [("action", PStr "on"); ("target", PDict [])]) app_init)
    = Raised TypeError ∧
  result (joinSession X (PStr "S1") app_init) = Raised AttributeError ∧
  result (playerAction X PNone app_init) = Raised AttributeError.
Proof. repeat split; by vm_compute. Qed.

(** *** C10: an Action changes no registry *)

(** C10.  For every state, connection and payload, [playerAction] leaves
    [player_info] and [active_sessions] as they were, and so the whole
    process state; apart from raising on a malformed payload, all it does is
    emit [actionSuccess] and [globalStateUpdate].  Nothing requires the
    connection to have joined a session. *)
Theorem playerAction_frame (Σ : system) (sid : string) (data : pyval) :
  final (playerAction sid data (application Σ)) = application Σ ∧
  (step Σ (PlayerAction sid data)).1 = Σ ∧
  Forall (λ e, is_emit "actionSuccess" e || is_emit "globalStateUpdate" e = true)
    (trace (playerAction sid data (application Σ))).
Proof.
  split; [|split; [apply step_action|]].
  - destruct data as [| | | | |d]; [reflexivity..|].
    destruct (py_hash_key (field d "target" PNone)) as [k|] eqn:Hk.
    + by rewrite (playerAction_hashable _ _ _ k).
    + by rewrite playerAction_unhashable.
  - destruct data as [| | | | |d]; [by constructor..|].
    destruct (py_hash_key (field d "target" PNone)) as [k|] eqn:Hk.
    + rewrite (playerAction_hashable _ _ _ k) by done. by repeat constructor.
    + rewrite playerAction_unhashable by done. constructor.
Qed.

(* ===================================================================== *)
(** ** Further properties of the handlers *)
(* ===================================================================== *)

(** X1.  A Join repeated with the same payload changes nothing more: the
    registries after the second [joinSession] are those after the first, no
    set is created, and the others are told [playerJoined] once more. *)
Theorem joinSession_twice_is_once
    (σ : app_state) (sid : string) (d : list (pyval * pyval)) (k : hkey) :
  py_hash_key (field d "sessionId" PNone) = Some k →
  let once := joinSession sid (PDict d) σ in
  let twice := joinSession sid (PDict d) (final once) in
  final twice = final once ∧
  result twice = Returned () ∧
  (NewSession k ∉ trace twice) ∧
  existsb (is_emit "playerJoined") (trace twice) = true.
Proof.
  intros Hk once twice. unfold twice, once.
  rewrite !(joinSession_hashable _ _ _ k) by done. cbn [final result trace].
  unfold members. cbn [player_info active_sessions].
  rewrite lookup_insert_eq. cbn [default from_option id].
  rewrite !insert_insert_eq. split; [|split; [done|split; [|done]]].
  - f_equal. f_equal. set_solver.
  - cbn [List.app]. intros H.
    repeat (apply elem_of_cons in H as [H|H]; [discriminate|]).
    by apply elem_of_nil in H.
Qed.

Lemma joinSession_twice_is_once_witness :
  final (joinSession X (joins "S1" "kitchen" "Alice")
           (final (joinSession X (joins "S1" "kitchen" "Alice") app_init))) =
  final (joinSession X (joins "S1" "kitchen" "Alice") app_init).
Proof.
  exact (proj1 (joinSession_twice_is_once app_init X
                  (join_fields "S1" "kitchen" "Alice") (HStr "S1") eq_refl)).
Defined.

(** X2.  A connection that was not registered joins a session with
    a truthy identifier and disconnects: both handlers return, [player_info]
    and every membership set are as before, and the key of the session
    stays in [active_sessions] (with an empty set when the session was new). *)
Theorem join_then_disconnect_restores
    (σ : app_state) (sid : string) (d : list (pyval * pyval)) (k : hkey) :
  py_hash_key (field d "sessionId" PNone) = Some k →
  py_truthy (field d "sessionId" PNone) = true →
  player_info σ !! sid = None →
  sid ∉ members σ k →
  let joined := joinSession sid (PDict d) σ in
  let left := disconnect sid (final joined) in
  result joined = Returned () ∧
  result left = Returned () ∧
  player_info (final left) = player_info σ ∧
  (∀ k', members (final left) k' = members σ k') ∧
  is_Some (active_sessions (final left) !! k).
Proof.
  intros Hk Ht Hpi Hm joined left. unfold left, joined.
  rewrite (joinSession_hashable _ _ _ k) by done. cbn [final result].
  split; [done|].
  erewrite disconnect_known; [|cbn [player_info]; apply lookup_insert_eq].
  cbv zeta. cbn [sessionId player_info active_sessions].
  rewrite Ht, Hk, lookup_insert_eq. cbn [final result player_info active_sessions].
  split; [done|]. split; [|split].
  - rewrite delete_insert_eq. by apply delete_id.
  - intros k'. unfold members. cbn [active_sessions].
    rewrite insert_insert_eq, lookup_insert. case_decide; [subst k'|done].
    cbn [default from_option id]. fold (members σ k). set_solver.
  - rewrite insert_insert_eq, lookup_insert_eq. eauto.
Qed.

Lemma join_then_disconnect_restores_witness :
  player_info
    (final (disconnect X (final (joinSession X (joins "S1" "kitchen" "Alice") app_init))))
  = player_info app_init ∧
  is_Some (active_sessions
             (final (disconnect X
                       (final (joinSession X (joins "S1" "kitchen" "Alice") app_init))))
           !! HStr "S1").
Proof.
  destruct (join_then_disconnect_restores app_init X
              (join_fields "S1" "kitchen" "Alice") (HStr "S1"))
    as (_ & _ & Hpi & _ & Hkey).
  - reflexivity.
  - reflexivity.
  - reflexivity.
  - apply (bool_decide_unpack _). vm_compute. exact I.
  - split; [exact Hpi|exact Hkey].
Defined.

(** The registries a transition leaves are those its handler leaves. *)
Lemma step_application Σ e :
  application (step Σ e).1 = final (handle e (application Σ)).
Proof.
  destruct e as [sid|sid|sid data|sid data|sid]; cbn [step]; unfold dispatch;
    repeat match goal with
           | |- context [sio_exec ?s ?t] => destruct (sio_exec s t)
           end; done.
Qed.

(** What a handler leaves in the registries, event by event. *)
Lemma handle_final e σ :
  final (handle e σ) = σ ∨
  (∃ info, final (handle e σ) =
             AppState (<[sender e := info]> (player_info σ)) (active_sessions σ)) ∨
  (∃ info k, final (handle e σ) =
               AppState (<[sender e := info]> (player_info σ))
                        (<[k := members σ k ∪ {[sender e]}]> (active_sessions σ))) ∨
  final (handle e σ) =
    AppState (delete (sender e) (player_info σ)) (active_sessions σ) ∨
  (∃ k ms, active_sessions σ !! k = Some ms ∧
           final (handle e σ) =
             AppState (delete (sender e) (player_info σ))
                      (<[k := ms ∖ {[sender e]}]> (active_sessions σ))).
Proof.
  assert (Hleave : ∀ sid,
    final (disconnect sid σ) = σ ∨
    final (disconnect sid σ) =
      AppState (delete sid (player_info σ)) (active_sessions σ) ∨
    (∃ k ms, active_sessions σ !! k = Some ms ∧
             final (disconnect sid σ) =
               AppState (delete sid (player_info σ))
                        (<[k := ms ∖ {[sid]}]> (active_sessions σ)))).
  { intros sid. destruct (player_info σ !! sid) as [info|] eqn:Hpi.
    2:{ left. by rewrite disconnect_unknown. }
    rewrite (disconnect_known _ _ info) by done. cbv zeta.
    destruct (py_truthy (sessionId info)); [|by right; left].
    destruct (py_hash_key (sessionId info)) as [k|]; [|by left].
    destruct (active_sessions σ !! k) as [ms|] eqn:Hms; [|by right; left].
    do 2 right. by exists k, ms. }
  destruct e as [sid|sid|sid data|sid data|sid]; cbn [handle sender].
  - by left.
  - destruct (Hleave sid) as [H|[H|H]]; [by left|by do 3 right; left|by do 4 right].
  - destruct data as [| | | | |d]; [by left..|].
    destruct (py_hash_key (field d "sessionId" PNone)) as [k|] eqn:Hk.
    + rewrite (joinSession_hashable _ _ _ k) by done. do 2 right. left. eauto.
    + rewrite joinSession_unhashable by done. right. left. eauto.
  - left. destruct data as [| | | | |d]; [done..|].
    destruct (py_hash_key (field d "target" PNone)) as [k|] eqn:Hk.
    + by rewrite (playerAction_hashable _ _ _ k).
    + by rewrite playerAction_unhashable.
  - destruct (Hleave sid) as [H|[H|H]]; [by left|by do 3 right; left|by do 4 right].
Qed.

(** X3.  Whatever the event and the payload, and whether the handler
    returns or raises, the registration and the memberships of every
    connection other than the sender are left as they were. *)
Theorem handlers_touch_only_sender (e : event) (σ : app_state) (m : string) :
  m ≠ sender e →
  player_info (final (handle e σ)) !! m = player_info σ !! m ∧
  ∀ k, m ∈ members (final (handle e σ)) k ↔ m ∈ members σ k.
Proof.
  intros Hne.
  destruct (handle_final e σ)
    as [->|[(info & ->)|[(info & k & ->)|[->|(k & ms & Hms & ->)]]]];
    cbn [player_info].
  - done.
  - by rewrite lookup_insert_ne.
  - rewrite lookup_insert_ne by done. split; [done|]. intros k'.
    rewrite elem_of_members_insert. case_decide; [subst k'|done]. set_solver.
  - by rewrite lookup_delete_ne.
  - rewrite lookup_delete_ne by done. split; [done|]. intros k'.
    rewrite elem_of_members_insert. case_decide; [subst k'|done].
    rewrite (elem_of_members _ _ ms) by done. set_solver.
Qed.

Lemma handlers_touch_only_sender_witness :
  player_info (final (handle (Disconnect X) (application (after both_joined)))) !! Y =
    player_info (application (after both_joined)) !! Y ∧
  ∀ k, Y ∈ members (final (handle (Disconnect X) (application (after both_joined)))) k
       ↔ Y ∈ members (application (after both_joined)) k.
Proof.
  apply (handlers_touch_only_sender (Disconnect X)). discriminate.
Defined.

Lemma handle_keeps_sessions e σ k :
  is_Some (active_sessions σ !! k) →
  is_Some (active_sessions (final (handle e σ)) !! k).
Proof.
  intros Hk.
  destruct (handle_final e σ)
    as [->|[(info & ->)|[(info & k' & ->)|[->|(k' & ms & Hms & ->)]]]];
    cbn [active_sessions]; try done.
  - rewrite lookup_insert. case_decide; eauto.
  - rewrite lookup_insert. case_decide; eauto.
Qed.

(** X4.  No sequence of events removes a key of [active_sessions]: a
    session that has been joined keeps its entry, also once its last member
    has left. *)
Theorem sessions_are_never_removed (es : list event) (Σ Σ' : system) (k : hkey) :
  run es Σ = Some Σ' →
  is_Some (active_sessions (application Σ) !! k) →
  is_Some (active_sessions (application Σ') !! k).
Proof.
  revert Σ. induction es as [|e es IH]; intros Σ; cbn [run].
  - by intros [= <-].
  - destruct (enabled Σ e); [|done]. intros Hrun Hk. apply (IH _ Hrun).
    rewrite step_application. by apply handle_keeps_sessions.
Qed.

Lemma sessions_are_never_removed_witness :
  is_Some
    (active_sessions
       (application
          (step (after [Connect X; JoinSession X (joins "S1" "kitchen" "Alice")])
                (Disconnect X)).1)
     !! HStr "S1").
Proof.
  apply (sessions_are_never_removed [Disconnect X]
           (after [Connect X; JoinSession X (joins "S1" "kitchen" "Alice")])).
  - vm_compute. reflexivity.
  - apply (bool_decide_unpack _). vm_compute. exact I.
Defined.

Lemma disconnect_other_sessions σ sid k :
  (∀ info, player_info σ !! sid = Some info → py_hash_key (sessionId info) ≠ Some k) →
  members (final (disconnect sid σ)) k = members σ k.
Proof.
  intros Hother. destruct (player_info σ !! sid) as [info|] eqn:Hpi.
  2:{ by rewrite disconnect_unknown. }
  specialize (Hother info eq_refl).
  rewrite (disconnect_known _ _ info) by done. cbv zeta.
  destruct (py_truthy (sessionId info)); [|done].
  destruct (py_hash_key (sessionId info)) as [k'|]; [|done].
  destruct (active_sessions σ !! k') as [ms|] eqn:Hms; [|done].
  cbn [final]. unfold members. cbn [active_sessions].
  rewrite lookup_insert_ne; [done|congruence].
Qed.

(** X5.  [disconnect] leaves every session other than the one the
    connection is registered under as it was, the connection's own place in
    it included. *)
Theorem disconnect_clears_only_registered_session
    (σ : app_state) (sid : string) (k : hkey) :
  (∀ info, player_info σ !! sid = Some info → py_hash_key (sessionId info) ≠ Some k) →
  members (final (disconnect sid σ)) k = members σ k ∧
  active_sessions (final (disconnect sid σ)) !! k = active_sessions σ !! k.
Proof.
  intros Hother. split; [by apply disconnect_other_sessions|].
  destruct (player_info σ !! sid) as [info|] eqn:Hpi.
  2:{ by rewrite disconnect_unknown. }
  specialize (Hother info eq_refl).
  rewrite (disconnect_known _ _ info) by done. cbv zeta.
  destruct (py_truthy (sessionId info)); [|done].
  destruct (py_hash_key (sessionId info)) as [k'|]; [|done].
  destruct (active_sessions σ !! k') as [ms|] eqn:Hms; [|done].
  cbn [final active_sessions]. rewrite lookup_insert_ne; [done|congruence].
Qed.

Lemma disconnect_clears_only_registered_session_witness :
  members (final (disconnect X (application (after joined_twice)))) (HStr "A") =
    members (application (after joined_twice)) (HStr "A") ∧
  active_sessions (final (disconnect X (application (after joined_twice)))) !! HStr "A" =
    active_sessions (application (after joined_twice)) !! HStr "A".
Proof.
  apply disconnect_clears_only_registered_session.
  intros info Hinfo. vm_compute in Hinfo. injection Hinfo as <-. discriminate.
Defined.

(** X6.  A connection that joins a session, then another one, and
    disconnects, is no longer registered but is still listed in the
    membership set of the first session. *)
Theorem rejoin_leaves_stale_member
    (σ : app_state) (sid : string) (dA dB : list (pyval * pyval)) (kA kB : hkey) :
  py_hash_key (field dA "sessionId" PNone) = Some kA →
  py_hash_key (field dB "sessionId" PNone) = Some kB →
  kA ≠ kB →
  let σ1 := final (joinSession sid (PDict dA) σ) in
  let σ2 := final (joinSession sid (PDict dB) σ1) in
  let left := disconnect sid σ2 in
  result left = Returned () ∧
  player_info (final left) !! sid = None ∧
  sid ∈ members (final left) kA.
Proof.
  intros HA HB Hne σ1 σ2 left.
  assert (Hm : sid ∈ members σ2 kA).
  { unfold σ2, σ1. rewrite (joinSession_hashable _ _ _ kB) by done.
    rewrite (joinSession_hashable _ _ _ kA) by done. cbn [final].
    rewrite elem_of_members_insert, decide_False by done.
    rewrite elem_of_members_insert, decide_True by done. set_solver. }
  assert (Hpi : player_info σ2 !! sid =
                Some (PInfo (field dB "sessionId" PNone) (field dB "room" PNone)
                            (field dB "playerName" (PStr "Guest")))).
  { unfold σ2. rewrite (joinSession_hashable _ _ _ kB) by done.
    cbn [final player_info]. apply lookup_insert_eq. }
  split; [|split].
  - unfold left. rewrite (disconnect_known _ _ _ Hpi). cbv zeta. cbn [sessionId].
    rewrite HB. destruct (py_truthy _); [|done].
    by destruct (active_sessions σ2 !! kB).
  - unfold left. rewrite (disconnect_known _ _ _ Hpi). cbv zeta. cbn [sessionId].
    rewrite HB. destruct (py_truthy _); [|apply lookup_delete_eq].
    destruct (active_sessions σ2 !! kB); apply lookup_delete_eq.
  - unfold left. rewrite disconnect_other_sessions; [done|].
    intros info. rewrite Hpi. intros [= <-]. cbn [sessionId]. congruence.
Qed.

Lemma rejoin_leaves_stale_member_witness :
  X ∈ members
        (final (disconnect X
                  (final (joinSession X (joins "B" "kitchen" "Alice")
                            (final (joinSession X (joins "A" "kitchen" "Alice") app_init))))))
        (HStr "A").
Proof.
  apply (rejoin_leaves_stale_member app_init X
           (join_fields "A" "kitchen" "Alice") (join_fields "B" "kitchen" "Alice")
           (HStr "A") (HStr "B")).
  - reflexivity.
  - reflexivity.
  - discriminate.
Defined.

(** X7.  A Join whose [sessionId] is a non-empty list or dictionary
    raises [TypeError] after it has registered the announcement: no session
    is touched, nothing is emitted, and every later [disconnect] of the
    connection raises [TypeError] too and leaves the registration in place. *)
Theorem failed_join_blocks_disconnect
    (σ : app_state) (sid : string) (d : list (pyval * pyval)) :
  py_hash_key (field d "sessionId" PNone) = None →
  py_truthy (field d "sessionId" PNone) = true →
  let joined := joinSession sid (PDict d) σ in
  result joined = Raised TypeError ∧
  is_Some (player_info (final joined) !! sid) ∧
  active_sessions (final joined) = active_sessions σ ∧
  existsb (λ e, is_emit "playerJoined" e || is_emit "sessionState" e) (trace joined) = false ∧
  disconnect sid (final joined) = Ran (final joined) [] (Raised TypeError).
Proof.
  intros Hk Ht joined. unfold joined. rewrite joinSession_unhashable by done.
  cbn [result final trace player_info active_sessions].
  split; [done|]. split; [rewrite lookup_insert_eq; eauto|]. split; [done|].
  split; [done|].
  erewrite disconnect_known; [|cbn [player_info]; apply lookup_insert_eq].
  cbv zeta. cbn [sessionId]. by rewrite Ht, Hk.
Qed.

Lemma failed_join_blocks_disconnect_witness :
  disconnect X (final (joinSession X (obj [("sessionId", PList [PStr "S1"])]) app_init)) =
    Ran (final (joinSession X (obj [("sessionId", PList [PStr "S1"])]) app_init)) []
        (Raised TypeError).
Proof.
  apply (failed_join_blocks_disconnect app_init X
           (items [("sessionId", PList [PStr "S1"])])).
  - reflexivity.
  - reflexivity.
Defined.

(** X8.  [connection_count] counts announcements: [joinSession]
    with a dictionary payload adds one for a connection that was not
    registered (also when it goes on to raise) and nothing for one that
    was; [connect] and [playerAction] leave it; a [disconnect] that returns
    takes one off for a registered connection and nothing otherwise. *)
Theorem connection_count_tracks_announcements
    (σ : app_state) (sid : string) (d : list (pyval * pyval)) (data : pyval) :
  connection_count (final (joinSession sid (PDict d) σ)) =
    match player_info σ !! sid with
    | Some _ => connection_count σ
    | None => S (connection_count σ)
    end ∧
  connection_count (final (playerAction sid data σ)) = connection_count σ ∧
  connection_count (final (connect sid σ)) = connection_count σ ∧
  (result (disconnect sid σ) = Returned () →
   connection_count σ =
     match player_info σ !! sid with
     | Some _ => S (connection_count (final (disconnect sid σ)))
     | None => connection_count (final (disconnect sid σ))
     end).
Proof.
  unfold connection_count. split; [|split; [|split; [done|]]].
  - destruct (py_hash_key (field d "sessionId" PNone)) as [k|] eqn:Hk.
    + rewrite (joinSession_hashable _ _ _ k) by done. cbn [final player_info].
      rewrite map_size_insert. by destruct (player_info σ !! sid).
    + rewrite joinSession_unhashable by done. cbn [final player_info].
      rewrite map_size_insert. by destruct (player_info σ !! sid).
  - destruct data as [| | | | |d0]; [done..|].
    destruct (py_hash_key (field d0 "target" PNone)) as [k|] eqn:Hk.
    + by rewrite (playerAction_hashable _ _ _ k).
    + by rewrite playerAction_unhashable.
  - destruct (player_info σ !! sid) as [info|] eqn:Hpi.
    2:{ by rewrite disconnect_unknown. }
    rewrite (disconnect_known _ _ info) by done. cbv zeta.
    assert (Hsize : size (player_info σ) = S (size (delete sid (player_info σ)))).
    { rewrite map_size_delete, Hpi.
      assert (size (player_info σ) ≠ 0%nat); [|lia].
      intros H0%map_size_empty_inv. by rewrite H0, lookup_empty in Hpi. }
    destruct (py_truthy (sessionId info)); [|done].
    destruct (py_hash_key (sessionId info)) as [k|]; [|done].
    by destruct (active_sessions σ !! k).
Qed.

Lemma connection_count_tracks_announcements_witness :
  connection_count (application (after both_joined)) =
    S (connection_count (final (disconnect X (application (after both_joined))))).
Proof.
  destruct (connection_count_tracks_announcements (application (after both_joined)) X [] PNone)
    as (_ & _ & _ & Hleft).
  apply (Hleft ltac:(vm_compute; reflexivity)).
Defined.

(** X9.  What [playerAction] emits, and whether it raises, is the
    same in every state of the registries: the name in [updatedBy] and the
    session addressed come from the payload, not from what the connection
    announced. *)
Theorem playerAction_ignores_registries
    (σ σ' : app_state) (sid : string) (data : pyval) :
  trace (playerAction sid data σ) = trace (playerAction sid data σ') ∧
  result (playerAction sid data σ) = result (playerAction sid data σ').
Proof.
  destruct data as [| | | | |d]; [done..|].
  destruct (py_hash_key (field d "target" PNone)) as [k|] eqn:Hk.
  - by rewrite !(playerAction_hashable _ _ _ k).
  - by rewrite !playerAction_unhashable.
Qed.

(** X10.  [new_state] is one of "on", "aperto", "off", "chiuso"; it is
    never "chiusa", the state [initial_state] gives valvola_gas and
    finestra. *)
Theorem new_state_never_chiusa (action : pyval) :
  new_state action ∈ ["on"; "aperto"; "off"; "chiuso"] ∧
  object_state initial_state "valvola_gas" ≠ Some (PStr (new_state action)) ∧
  object_state initial_state "finestra" ≠ Some (PStr (new_state action)).
Proof.
  assert (H : new_state action ∈ ["on"; "aperto"; "off"; "chiuso"]).
  { unfold new_state.
    destruct (py_eq_str action "on"); [set_solver|].
    destruct (py_eq_str action "open"); [set_solver|].
    destruct (py_eq_str action "off"); set_solver. }
  split; [done|].
  change (object_state initial_state "valvola_gas") with (Some (PStr "chiusa")).
  change (object_state initial_state "finestra") with (Some (PStr "chiusa")).
  repeat (apply elem_of_cons in H as [->|H]; [by split|]).
  by apply elem_of_nil in H.
Qed.

(** The server after a transition. *)
Lemma step_server Σ e :
  server (step Σ e).1 =
    match e with
    | Connect sid => open_transport sid (server Σ)
    | Disconnect sid | DisconnectRequest sid =>
        leave_all sid (close_transport sid (server Σ))
    | PlayerAction _ _ => server Σ
    | JoinSession sid data =>
        match data with
        | PDict d =>
            match py_hash_key (field d "sessionId" PNone) with
            | Some k =>
                enter (HStr (py_str (field d "sessionId" PNone) +:+ ":"
                             +:+ py_str (field d "room" PNone)))
                  sid (enter k sid (server Σ))
            | None => server Σ
            end
        | _ => server Σ
        end
    end.
Proof.
  assert (Hleave : ∀ sid, server (step Σ (Disconnect sid)).1 =
                          leave_all sid (close_transport sid (server Σ))).
  { intros sid. destruct (player_info (application Σ) !! sid) as [info|] eqn:Hpi.
    2:{ by rewrite step_disconnect_unknown. }
    rewrite (step_disconnect_known _ _ info) by done. cbv zeta.
    destruct (py_truthy (sessionId info)); [|done].
    destruct (py_hash_key (sessionId info)) as [k|]; [|done].
    by destruct (active_sessions (application Σ) !! k). }
  destruct e as [sid|sid|sid data|sid data|sid].
  - done.
  - apply Hleave.
  - destruct data as [| | | | |d]; try (by rewrite step_join_not_dict).
    destruct (py_hash_key (field d "sessionId" PNone)) as [k|] eqn:Hk.
    + by rewrite (step_join_hashable _ _ _ k).
    + by rewrite step_join_unhashable.
  - by rewrite step_action.
  - rewrite step_request_state. apply Hleave.
Qed.

(** Every live client is in the room of all clients. *)
Lemma live_in_room_of_all es : ∀ Σ Σ',
  (∀ m, m ∈ live (server Σ) → m ∈ members_of (server Σ) HNone) →
  run es Σ = Some Σ' →
  ∀ m, m ∈ live (server Σ') → m ∈ members_of (server Σ') HNone.
Proof.
  induction es as [|e es IH]; intros Σ Σ' HI; cbn [run].
  - by intros [= <-].
  - destruct (enabled Σ e); [|done]. apply IH. intros m. rewrite step_server.
    destruct e as [sid|sid|sid data|sid data|sid].
    + rewrite live_open_transport.
      intros [Hl| ->%elem_of_singleton]%elem_of_union.
      * by apply elem_of_members_of_open, HI.
      * change (sid ∈ members_of (enter HNone sid (enter (HStr sid) sid (server Σ))) HNone).
        rewrite !elem_of_members_of_enter. auto.
    + rewrite live_leave_close.
      intros [Hl Hne%not_elem_of_singleton]%elem_of_difference.
      apply elem_of_members_of_leave_all. auto.
    + destruct data as [| | | | |d]; try apply HI.
      destruct (py_hash_key (field d "sessionId" PNone)); [|apply HI].
      rewrite !live_enter, !elem_of_members_of_enter. auto.
    + apply HI.
    + rewrite live_leave_close.
      intros [Hl Hne%not_elem_of_singleton]%elem_of_difference.
      apply elem_of_members_of_leave_all. auto.
Qed.

(** X11.  In every reachable state a connection registered in
    [player_info] under a hashable session identifier is in the membership
    set of that session, so the test [session_id in active_sessions] of
    [disconnect] succeeds for it. *)
Theorem registered_connection_is_member
    (Σ : system) (sid : string) (info : pinfo) (k : hkey) :
  reachable Σ →
  player_info (application Σ) !! sid = Some info →
  py_hash_key (sessionId info) = Some k →
  ∃ ms, active_sessions (application Σ) !! k = Some ms ∧ sid ∈ ms.
Proof.
  intros [_ _ _ Hann _]%inv_reachable Hpi Hk.
  apply members_is_Some. by eapply Hann.
Qed.

Lemma registered_connection_is_member_witness :
  ∃ ms, active_sessions (application (after both_joined)) !! HStr "S1" = Some ms ∧ X ∈ ms.
Proof.
  apply (registered_connection_is_member (after both_joined) X
           (PInfo (PStr "S1") (PStr "kitchen") (PStr "Alice"))).
  - apply reachable_after. vm_compute. reflexivity.
  - vm_compute. reflexivity.
  - reflexivity.
Defined.

(** X12.  [send_notification] is [broadcast_to_session] with the
    event [globalNotification]; in every reachable state
    [broadcast_to_session] changes nothing and emits its event once, to
    recipients without repetition that include every connection of the
    session's membership set, nobody being skipped. *)
Theorem broadcast_to_session_reaches_members
    (Σ : system) (session_id : pyval) (event : string) (data message : pyval) (k : hkey) :
  reachable Σ →
  py_hash_key session_id = Some k →
  send_notification session_id message =
    broadcast_to_session session_id "globalNotification" (obj [("message", message)]) ∧
  (server_call Σ (broadcast_to_session session_id event data)).1 = Σ ∧
  ∃ R,
    (server_call Σ (broadcast_to_session session_id event data)).2 =
      [Delivery event data (Some R)] ∧
    NoDup R ∧
    ∀ m, m ∈ members (application Σ) k → m ∈ live (server Σ) → m ∈ R.
Proof.
  intros [_ _ Hroom _ _]%inv_reachable Hk. split; [done|].
  unfold server_call, dispatch, broadcast_to_session, sio_emit, perform.
  rewrite Hk. unfold mbind, handler_bind, mret, handler_ret.
  cbn [trace final sio_exec sio_apply List.app id fst snd].
  split; [by destruct Σ|].
  destruct (audience_spec (server Σ) session_id None k Hk) as (R & -> & Hnd & HR).
  exists R. split; [done|]. split; [done|].
  intros m Hm Hl. apply HR. split; [by apply Hroom|done].
Qed.

Lemma broadcast_to_session_reaches_members_witness :
  ∃ R,
    (server_call (after both_joined)
       (broadcast_to_session (PStr "S1") "globalNotification"
          (obj [("message", PStr "five minutes left")]))).2 =
      [Delivery "globalNotification" (obj [("message", PStr "five minutes left")]) (Some R)] ∧
    NoDup R ∧
    ∀ m, m ∈ members (application (after both_joined)) (HStr "S1") →
         m ∈ live (server (after both_joined)) → m ∈ R.
Proof.
  apply (broadcast_to_session_reaches_members (after both_joined) (PStr "S1")
           "globalNotification" (obj [("message", PStr "five minutes left")])
           (PStr "five minutes left") (HStr "S1")).
  - apply reachable_after. vm_compute. reflexivity.
  - reflexivity.
Defined.

(** X13.  In every reachable state [broadcast_element_update]
    changes nothing and emits [globalNotification] then [globalStateUpdate]
    to exactly the connected clients, whatever the room named; the update
    carries the room and the timestamp with "Z" appended, and no
    [objectStates]. *)
Theorem broadcast_element_update_reaches_everyone
    (Σ : system) (utcnow : string) (room_name element action value : pyval) :
  reachable Σ →
  let call := server_call Σ (broadcast_element_update utcnow room_name element action value) in
  call.1 = Σ ∧
  ∃ notice update R,
    call.2 = [Delivery "globalNotification" notice (Some R);
              Delivery "globalStateUpdate" update (Some R)] ∧
    (∀ m, m ∈ R ↔ m ∈ live (server Σ)) ∧
    item notice "message" =
      Some (PStr (py_str element +:+ " in " +:+ py_str room_name +:+ ": " +:+ py_str action)) ∧
    item update "room" = Some room_name ∧
    item update "timestamp" = Some (PStr (utcnow +:+ "Z")) ∧
    item update "objectStates" = None.
Proof.
  intros [es Hes] call.
  assert (Hall : ∀ m, m ∈ live (server Σ) → m ∈ members_of (server Σ) HNone).
  { eapply live_in_room_of_all; [|done]. cbn. set_solver. }
  unfold call, server_call, dispatch, broadcast_element_update, sio_emit, perform.
  cbn [py_hash_key]. unfold mbind, handler_bind, mret, handler_ret.
  cbn [trace final sio_exec sio_apply List.app id fst snd].
  split; [by destruct Σ|].
  destruct (audience_spec (server Σ) PNone None HNone eq_refl) as (R & -> & Hnd & HR).
  eexists _, _, R. split; [reflexivity|]. split; [|by repeat split].
  intros m. rewrite HR. naive_solver.
Qed.

Lemma broadcast_element_update_reaches_everyone_witness :
  ∃ notice update R,
    (server_call (after both_joined)
       (broadcast_element_update "2024-01-01T00:00:00" (PStr "kitchen") (PStr "forno")
          (PStr "on") (PBool true))).2 =
      [Delivery "globalNotification" notice (Some R);
       Delivery "globalStateUpdate" update (Some R)] ∧
    (∀ m, m ∈ R ↔ m ∈ live (server (after both_joined))) ∧
    item notice "message" = Some (PStr "forno in kitchen: on") ∧
    item update "room" = Some (PStr "kitchen") ∧
    item update "timestamp" = Some (PStr "2024-01-01T00:00:00Z") ∧
    item update "objectStates" = None.
Proof.
  apply (broadcast_element_update_reaches_everyone (after both_joined)
           "2024-01-01T00:00:00" (PStr "kitchen") (PStr "forno") (PStr "on") (PBool true)).
  apply reachable_after. vm_compute. reflexivity.
Defined.

(** X14.  In every reachable state, a connected player registered
    under a session receives the [globalStateUpdate] of every Action another
    connection sends for that session, with the resolved state of the
    target, the name and the room of the payload. *)
Theorem registered_player_receives_actions
    (Σ : system) (x y : string) (info : pinfo) (d : list (pyval * pyval)) (k : hkey) :
  reachable Σ →
  player_info (application Σ) !! y = Some info →
  py_hash_key (sessionId info) = Some k →
  y ∈ live (server Σ) →
  x ≠ y →
  py_hash_key (field d "sessionId" PNone) = Some k →
  is_Some (py_hash_key (field d "target" PNone)) →
  ∃ R,
    deliveries_of "globalStateUpdate" (step Σ (PlayerAction x (PDict d))).2 =
      [Delivery "globalStateUpdate"
         (obj [("objectStates",
                PDict [(field d "target" PNone,
                        PStr (new_state (field d "action" PNone)))]);
               ("updatedBy", field d "playerName" (PStr "Guest"));
               ("room", field d "room" PNone)])
         (Some R)] ∧
    y ∈ R.
Proof.
  intros [_ _ Hroom Hann _]%inv_reachable Hpi Hk Hlive Hne Hks [kt Hkt].
  rewrite (step_action_hashable _ _ _ kt) by done.
  destruct (audience_spec (server Σ) (field d "sessionId" PNone) (Some x) k Hks)
    as (R & -> & _ & HR).
  exists R. split; [reflexivity|]. apply HR.
  split; [|split; [congruence|done]].
  apply Hroom; [|done]. by eapply Hann.
Qed.

Lemma registered_player_receives_actions_witness :
  ∃ R,
    deliveries_of "globalStateUpdate"
      (step (after both_joined)
            (PlayerAction X (acts "S1" "kitchen" "Alice" "on" "forno"))).2 =
      [Delivery "globalStateUpdate"
         (obj [("objectStates", PDict [(PStr "forno", PStr "on")]);
               ("updatedBy", PStr "Alice");
               ("room", PStr "kitchen")])
         (Some R)] ∧
    Y ∈ R.
Proof.
  apply (registered_player_receives_actions (after both_joined) X Y
           (PInfo (PStr "S1") (PStr "kitchen") (PStr "Bob"))
           (action_fields "S1" "kitchen" "Alice" "on" "forno") (HStr "S1")).
  - apply reachable_after. vm_compute. reflexivity.
  - vm_compute. reflexivity.
  - reflexivity.
  - apply (bool_decide_unpack _). vm_compute. exact I.
  - discriminate.
  - reflexivity.
  - exists (HStr "forno"). reflexivity.
Defined.

(* ===================================================================== *)
(** ** Properties of the session service *)
(* ===================================================================== *)

(** What a call does to one row. *)
Lemma serve_lookup integer_max db c session_id :
  serve integer_max db c !! session_id = db !! session_id ∨
  ∃ session session',
    db !! session_id = Some session ∧
    serve integer_max db c !! session_id = Some session' ∧
    room_id session' = room_id session ∧
    start_time session' = start_time session ∧
    expected_players session' = expected_players session ∧
    (connected_players session' = connected_players session ∨
     ∃ n, connected_players session = Some n ∧
          (connected_players session' = Some (n + 1) ∨
           (0 < n ∧ connected_players session' = Some (n - 1)))).
Proof.
  destruct c as [i|i|t i]; cbn [serve];
    unfold increment_players, decrement_players, end_session, get_by_id.
  - destruct (db !! i) as [s|] eqn:Hs; [|by left].
    destruct (connected_players s) as [n|] eqn:Hn; [|by left].
    destruct (integer_max <? n + 1); [by left|]. cbn [fst].
    destruct (decide (i = session_id)) as [->|Hne];
      [|left; by rewrite lookup_insert_ne].
    right. exists s, (with_connected_players (n + 1) s).
    rewrite lookup_insert_eq. repeat split; try done. right. exists n. auto.
  - destruct (db !! i) as [s|] eqn:Hs; [|by left].
    destruct (connected_players s) as [n|] eqn:Hn; [|by left].
    destruct (Z.ltb_spec 0 n); [|by left]. cbn [fst].
    destruct (decide (i = session_id)) as [->|Hne];
      [|left; by rewrite lookup_insert_ne].
    right. exists s, (with_connected_players (n - 1) s).
    rewrite lookup_insert_eq. repeat split; try done. right. exists n. auto.
  - destruct (db !! i) as [s|] eqn:Hs; [|by left]. cbn [fst].
    destruct (decide (i = session_id)) as [->|Hne];
      [|left; by rewrite lookup_insert_ne].
    right. exists s, (with_end_time t s).
    rewrite lookup_insert_eq. repeat split; try done. by left.
Qed.

Lemma serve_counts_ok integer_max db c :
  counts_ok db → counts_ok (serve integer_max db c).
Proof.
  intros Hok i s' n' Hs' Hn'.
  destruct (serve_lookup integer_max db c i) as [Heq|(s & s2 & Hs & Hs2 & _ & _ & _ & Hc)].
  - rewrite Heq in Hs'. by eapply Hok.
  - rewrite Hs2 in Hs'. injection Hs' as ->.
    destruct Hc as [Hc|(n & Hn & [Hc|[Hpos Hc]])]; rewrite Hc in Hn'.
    + by eapply Hok.
    + injection Hn' as <-. specialize (Hok _ _ _ Hs Hn). lia.
    + injection Hn' as <-. lia.
Qed.

Lemma serve_dom integer_max db c session_id :
  is_Some (serve integer_max db c !! session_id) ↔ is_Some (db !! session_id).
Proof.
  destruct (serve_lookup integer_max db c session_id) as [->|(s & s2 & -> & -> & _)]; [done|].
  split; eauto.
Qed.

Lemma counts_ok_one_session : counts_ok one_session.
Proof.
  intros i s n. unfold one_session. intros [_ <-]%lookup_singleton_Some [= <-]. lia.
Qed.

(** X15.  Starting from a table in which no player count is negative,
    no sequence of [increment_players], [decrement_players] and
    [end_session] calls makes one negative, and none creates or deletes a
    row, whatever the largest value of the column. *)
Theorem player_count_never_negative
    (integer_max : Z) (db : gmap Z game_session) (cs : list service_call) :
  counts_ok db →
  counts_ok (serve_all integer_max db cs) ∧
  ∀ session_id,
    is_Some (serve_all integer_max db cs !! session_id) ↔ is_Some (db !! session_id).
Proof.
  unfold serve_all. revert db. induction cs as [|c cs IH]; intros db Hok; cbn [foldl].
  - done.
  - destruct (IH (serve integer_max db c) (serve_counts_ok _ _ _ Hok)) as [H1 H2].
    split; [done|]. intros i. by rewrite H2, serve_dom.
Qed.

Lemma player_count_never_negative_witness :
  counts_ok (serve_all 2147483647 one_session
               [DecrementPlayers 7; DecrementPlayers 7; DecrementPlayers 7;
                IncrementPlayers 7]) ∧
  ∀ session_id,
    is_Some (serve_all 2147483647 one_session
               [DecrementPlayers 7; DecrementPlayers 7; DecrementPlayers 7;
                IncrementPlayers 7] !! session_id)
    ↔ is_Some (one_session !! session_id).
Proof.
  apply player_count_never_negative. exact counts_ok_one_session.
Defined.

Lemma increment_players_some integer_max db i s n :
  db !! i = Some s → connected_players s = Some n →
  increment_players integer_max db i =
    if integer_max <? n + 1 then (db, Raised CommitError)
    else (<[i := with_connected_players (n + 1) s]> db,
          Returned (Some (with_connected_players (n + 1) s))).
Proof. intros Hs Hn. unfold increment_players, get_by_id. by rewrite Hs, Hn. Qed.

Lemma decrement_players_some db i s n :
  db !! i = Some s → connected_players s = Some n →
  decrement_players db i =
    if 0 <? n
    then (<[i := with_connected_players (n - 1) s]> db,
          Returned (Some (with_connected_players (n - 1) s)))
    else (db, Returned (Some s)).
Proof. intros Hs Hn. unfold decrement_players, get_by_id. by rewrite Hs, Hn. Qed.

(** X16.  On a session with a non-negative player count below the
    largest value of the column, [increment_players] followed by
    [decrement_players] returns the row and the table as they were; the
    converse fails at zero, where [decrement_players] changes nothing and a
    following [increment_players] leaves a count of one.  At the largest
    value and above, [increment_players] raises on commit and leaves the
    table as it was. *)
Theorem decrement_undoes_increment
    (integer_max : Z) (db : gmap Z game_session) (session_id : Z)
    (session : game_session) (n : Z) :
  db !! session_id = Some session →
  connected_players session = Some n →
  0 ≤ n →
  let inc := increment_players integer_max db session_id in
  let dec := decrement_players inc.1 session_id in
  (n < integer_max →
   inc.2 = Returned (Some (with_connected_players (n + 1) session)) ∧
   dec.2 = Returned (Some session) ∧
   dec.1 = db ∧
   (n = 0 →
    decrement_players db session_id = (db, Returned (Some session)) ∧
    (increment_players integer_max (decrement_players db session_id).1 session_id).1
      !! session_id
      = Some (with_connected_players 1 session))) ∧
  (integer_max ≤ n → inc = (db, Raised CommitError)).
Proof.
  intros Hs Hn Hpos inc dec. unfold dec, inc.
  rewrite (increment_players_some _ _ _ _ _ Hs Hn).
  destruct (Z.ltb_spec integer_max (n + 1)) as [Htop|Hbelow];
    (split; [intros Hlt|intros Hge]); try lia; [done|].
  cbn [fst snd]. split; [done|].
  rewrite (decrement_players_some _ _ (with_connected_players (n + 1) session) (n + 1))
    by (done || apply lookup_insert_eq).
  destruct (Z.ltb_spec 0 (n + 1)); [|lia]. cbn [fst snd].
  assert (Hback : with_connected_players (n + 1 - 1)
                    (with_connected_players (n + 1) session) = session).
  { destruct session as [r st en ex c]. cbn in Hn. subst c.
    unfold with_connected_players. cbn. do 2 f_equal. lia. }
  rewrite Hback. split; [done|]. split.
  - rewrite insert_insert_eq. by apply insert_id.
  - intros ->. rewrite (decrement_players_some _ _ _ _ Hs Hn). cbn [Z.ltb Z.compare fst].
    split; [done|]. rewrite (increment_players_some _ _ _ _ _ Hs Hn).
    destruct (Z.ltb_spec integer_max (0 + 1)); [lia|]. cbn [fst].
    by rewrite lookup_insert_eq.
Qed.

Lemma decrement_undoes_increment_witness :
  (decrement_players (increment_players 2147483647 one_session 7).1 7).1 = one_session.
Proof.
  destruct (decrement_undoes_increment 2147483647 one_session 7 running 2)
    as [Hbelow _].
  - vm_compute. reflexivity.
  - reflexivity.
  - lia.
  - destruct Hbelow as (_ & _ & Hback & _); [lia|]. exact Hback.
Defined.



Lemma end_session_some t db i s :
  db !! i = Some s →
  end_session t db i = (<[i := with_end_time t s]> db, Returned (Some (with_end_time t s))).
Proof. intros Hs. unfold end_session, get_by_id. by rewrite Hs. Qed.

(** X18.  [end_session] does not look at [end_time]: ending a session
    that has ended succeeds and replaces its end time by the later one; the
    player count is not reset. *)
Theorem end_session_overwrites_end_time
    (db : gmap Z game_session) (session_id t1 t2 : Z) (session : game_session) :
  db !! session_id = Some session →
  let once := end_session t1 db session_id in
  let twice := end_specific_session t2 once.1 session_id in
  once.2 = Returned (Some (with_end_time t1 session)) ∧
  twice.2 = Returned (inr (with_end_time t2 session)) ∧
  twice.1 = <[session_id := with_end_time t2 session]> db ∧
  connected_players (with_end_time t2 session) = connected_players session.
Proof.
  intros Hs once twice. unfold twice, once, end_specific_session.
  rewrite (end_session_some t1 _ _ _ Hs). cbn [fst snd].
  rewrite (end_session_some t2 _ _ (with_end_time t1 session))
    by apply lookup_insert_eq.
  rewrite insert_insert_eq. by destruct session.
Qed.

Lemma end_session_overwrites_end_time_witness :
  (end_specific_session 3000 (end_session 2000 one_session 7).1 7).2 =
    Returned (inr (with_end_time 3000 running)).
Proof.
  destruct (end_session_overwrites_end_time one_session 7 2000 3000 running)
    as (_ & Htwice & _).
  - vm_compute. reflexivity.
  - exact Htwice.
Defined.
